(** * pinax-stripe: order and plan synchronisation, administrative filters

    A shallow embedding of
      - [pinax/stripe/actions/orders.py]  (create, retrieve, pay,
        create_return, sync_order_from_stripe_data),
      - [pinax/stripe/actions/plans.py]   (sync_plans),
      - [pinax/stripe/admin.py]           (the three custom list filters),
    together with the properties of the specification that concern them.

    Python values are embedded as [pyval]; provider payloads, keyword
    dictionaries and the attribute dictionaries of model instances are
    finite maps from names to [pyval]; the relational store is a finite map
    from model names to lists of rows; remote calls, database writes and
    exceptions are threaded through a state-and-error monad. *)

From Stdlib Require Import ZArith String Ascii List.
From stdpp Require Import base decidable option list gmap strings fin_maps.

Local Open Scope string_scope.
Local Open Scope Z_scope.

Set Warnings "-register-all".

(* ===================================================================== *)
(** ** Python values *)
(* ===================================================================== *)

(** The values that travel through the code: JSON-like payload values,
    [decimal.Decimal] amounts ([PDecimal u p] is [u * 10^-p]) and
    references to model instances ([PRef pk], the value of a ForeignKey). *)
Inductive pyval : Type :=
| PNone
| PBool (b : bool)
| PInt (z : Z)
| PStr (s : string)
| PDecimal (units : Z) (places : nat)
| PRef (pk : nat)
| PList (l : list pyval)
| PDict (d : list (string * pyval)).

Fixpoint pyval_eqb (x y : pyval) {struct x} : bool :=
  let fix list_eqb (l1 l2 : list pyval) {struct l1} : bool :=
    match l1, l2 with
    | [], [] => true
    | a :: l1', b :: l2' => pyval_eqb a b && list_eqb l1' l2'
    | _, _ => false
    end in
  let fix dict_eqb (d1 d2 : list (string * pyval)) {struct d1} : bool :=
    match d1, d2 with
    | [], [] => true
    | (k1, a) :: d1', (k2, b) :: d2' =>
        String.eqb k1 k2 && pyval_eqb a b && dict_eqb d1' d2'
    | _, _ => false
    end in
  match x, y with
  | PNone, PNone => true
  | PBool a, PBool b => Bool.eqb a b
  | PInt a, PInt b => Z.eqb a b
  | PStr a, PStr b => String.eqb a b
  | PDecimal u p, PDecimal u' p' => Z.eqb u u' && Nat.eqb p p'
  | PRef a, PRef b => Nat.eqb a b
  | PList l1, PList l2 => list_eqb l1 l2
  | PDict d1, PDict d2 => dict_eqb d1 d2
  | _, _ => false
  end.

Fixpoint pyval_eqb_eq (x y : pyval) {struct x} : pyval_eqb x y = true <-> x = y.
Proof.
  destruct x, y; simpl; try (split; [discriminate | congruence]).
  - tauto.
  - rewrite Bool.eqb_true_iff. split; congruence.
  - rewrite Z.eqb_eq. split; congruence.
  - rewrite String.eqb_eq. split; congruence.
  - rewrite andb_true_iff, Z.eqb_eq, Nat.eqb_eq.
    split; [intros []; congruence | intros E; split; congruence].
  - rewrite Nat.eqb_eq. split; congruence.
  - revert l0. induction l as [|a l IH]; intros [|b l0]; simpl;
      try (split; [discriminate | congruence]); [tauto|].
    rewrite andb_true_iff, IH, (pyval_eqb_eq a b).
    split; [intros [-> E]; congruence | intros E; split; congruence].
  - revert d0. induction d as [|[k a] d IH]; intros [|[k' b] d0]; simpl;
      try (split; [discriminate | congruence]); [tauto|].
    rewrite !andb_true_iff, IH, (pyval_eqb_eq a b), String.eqb_eq.
    split; [intros [[-> ->] E]; congruence | intros E; repeat split; congruence].
Qed.

#[global] Instance pyval_eq_dec : EqDecision pyval.
Proof.
  intros x y. destruct (pyval_eqb x y) eqn:E.
  - left. by apply pyval_eqb_eq.
  - right. intros H. apply pyval_eqb_eq in H. congruence.
Defined.

(** Python truthiness ([bool(v)]), as used by [if v:] and [v or d]. *)
Definition truthy (v : pyval) : bool :=
  match v with
  | PNone => false
  | PBool b => b
  | PInt z => negb (Z.eqb z 0)
  | PStr s => negb (String.eqb s "")
  | PDecimal u _ => negb (Z.eqb u 0)
  | PRef _ => true
  | PList l => match l with [] => false | _ => true end
  | PDict d => match d with [] => false | _ => true end
  end.

(** [a or b] *)
Definition py_or (a b : pyval) : pyval := if truthy a then a else b.

(** A provider payload ([stripe.StripeObject], a dict subclass), a keyword
    dictionary, or the attributes of a model instance. *)
Abbreviation StripeObject := (gmap string pyval).

(** [obj.get(key)]: the value, or [None] when the key is missing. *)
Definition dict_get (o : StripeObject) (key : string) : pyval :=
  default PNone (o !! key).

(* ===================================================================== *)
(** ** Strings: [str.find] *)
(* ===================================================================== *)

(** [s.find(sub)] scanning from offset [i]: the lowest index at which [sub]
    occurs, or [-1]. *)
Fixpoint find_from (sub s : string) (i : Z) : Z :=
  if String.prefix sub s then i
  else match s with
       | EmptyString => -1
       | String _ s' => find_from sub s' (i + 1)
       end.

Definition str_find (s sub : string) : Z := find_from sub s 0.

(** The phrase occurs somewhere in the text. *)
Definition contains (s sub : string) : Prop :=
  exists pre post : string, s = pre +:+ sub +:+ post.

(* ===================================================================== *)
(** ** Exceptions, rows, remote calls *)
(* ===================================================================== *)

(** Exception classes that the modelled code raises or lets through.
    [InvalidRequestError msg] is [stripe.InvalidRequestError] with
    [str(e) = msg]; [StripeError cls msg] stands for every other error
    class of the provider SDK (CardError, APIConnectionError, ...). *)
Inductive exn : Type :=
| ValueError (msg : string)
| KeyError (key : string)
| DoesNotExist (model : string)
| MultipleObjectsReturned (model : string)
| AttributeError (name : string)
| InvalidRequestError (msg : string)
| StripeError (cls : string) (msg : string).

Inductive result (A : Type) : Type :=
| Ok (a : A)
| Raise (e : exn).
Arguments Ok {A} a.
Arguments Raise {A} e.

(** A local model instance: primary key, external identifier, and the other
    attributes by field name. *)
Record Row : Type := mkRow {
  pk : nat;
  stripe_id : pyval;
  fields : gmap string pyval
}.

#[global] Instance Row_eq_dec : EqDecision Row.
Proof. solve_decision. Defined.

(** [getattr(obj, name)] *)
Definition attr (r : Row) (name : string) : pyval := dict_get (fields r) name.

(** The relational store: model name to rows, in insertion order. *)
Abbreviation Store := (gmap string (list Row)).

Definition objects (model : string) (d : Store) : list Row :=
  default [] (d !! model).

(** One entry per SQL write. *)
Inductive Write : Type :=
| Inserted (model : string) (pk : nat)
| Updated (model : string) (pk : nat).

(** One entry per request sent to the provider. *)
Inductive RemoteCall : Type :=
| Call_Order_create (params : StripeObject)
| Call_Order_retrieve (id : pyval)
| Call_Order_pay (order params : StripeObject)
| Call_Order_return_order (order params : StripeObject)
| Call_Charge_retrieve (id : pyval)
| Call_Plan_all.

(* ===================================================================== *)
(** ** The world: provider, request log, store, write log *)
(* ===================================================================== *)

(** The provider SDK, over an abstract provider state [Remote].  Mutating
    requests return the new provider state; retrievals and listings only
    read it.  Each request either answers with a payload or raises. *)
Record Provider (Remote : Type) : Type := mkProvider {
  Order_create : StripeObject -> Remote -> result StripeObject * Remote;
  Order_retrieve : pyval -> Remote -> result StripeObject;
  Order_pay : StripeObject -> StripeObject -> Remote -> result StripeObject * Remote;
  Order_return_order : StripeObject -> StripeObject -> Remote -> result StripeObject * Remote;
  Charge_retrieve : pyval -> Remote -> result StripeObject;
  Plan_all : Remote -> result (list StripeObject)
}.
Arguments Order_create {Remote}.
Arguments Order_retrieve {Remote}.
Arguments Order_pay {Remote}.
Arguments Order_return_order {Remote}.
Arguments Charge_retrieve {Remote}.
Arguments Plan_all {Remote}.

Record World (Remote : Type) : Type := mkWorld {
  remote : Remote;
  calls : list RemoteCall;
  db : Store;
  writes : list Write
}.
Arguments mkWorld {Remote}.
Arguments remote {Remote}.
Arguments calls {Remote}.
Arguments db {Remote}.
Arguments writes {Remote}.

Section Monad.
Context {Remote : Type}.

(** A computation reads and updates the world and returns or raises.
    Nothing is rolled back when it raises (no transaction is drawn). *)
Definition M (A : Type) : Type := World Remote -> result A * World Remote.

Definition ret {A} (a : A) : M A := fun w => (Ok a, w).

Definition raise {A} (e : exn) : M A := fun w => (Raise e, w).

Definition bind {A B} (c : M A) (k : A -> M B) : M B :=
  fun w => match c w with
           | (Ok a, w') => k a w'
           | (Raise e, w') => (Raise e, w')
           end.

(** [try: c  except <class>: h]: [handler e] is [Some h] when [e] is of a
    class the [except] clause names, [None] when it passes through. *)
Definition try_except {A} (c : M A) (handler : exn -> option (M A)) : M A :=
  fun w => match c w with
           | (Ok a, w') => (Ok a, w')
           | (Raise e, w') =>
               match handler e with
               | Some h => h w'
               | None => (Raise e, w')
               end
           end.

Definition log_call (c : RemoteCall) (w : World Remote) : World Remote :=
  mkWorld (remote w) (calls w ++ [c]) (db w) (writes w).

Definition set_remote (r : Remote) (w : World Remote) : World Remote :=
  mkWorld r (calls w) (db w) (writes w).

Definition write_table (model : string) (rows : list Row) (x : Write)
    (w : World Remote) : World Remote :=
  mkWorld (remote w) (calls w) (<[model := rows]> (db w)) (writes w ++ [x]).
End Monad.

Notation "'let*' x ':=' c 'in' k" := (bind c (fun x => k))
  (at level 10, x pattern, c at level 100, k at level 200).

(* ===================================================================== *)
(** ** The ORM operations the code relies on *)
(* ===================================================================== *)

Section ORM.
Context {Remote : Type}.
Local Abbreviation M := (@M Remote).

(** [Model.objects.filter(stripe_id=sid)] *)
Definition with_stripe_id (sid : pyval) (rows : list Row) : list Row :=
  filter (fun r => stripe_id r = sid) rows.

(** [Model.objects.get(stripe_id=sid)] *)
Definition objects_get (model : string) (sid : pyval) : M Row :=
  fun w => match with_stripe_id sid (objects model (db w)) with
           | [] => (Raise (DoesNotExist model), w)
           | [r] => (Ok r, w)
           | _ :: _ :: _ => (Raise (MultipleObjectsReturned model), w)
           end.

(** The next value of the auto-increment primary key. *)
Definition fresh_pk (rows : list Row) : nat :=
  S (foldr Nat.max 0%nat (pk <$> rows)).

(** [Model.objects.create(stripe_id=sid, **defaults)]: one INSERT. *)
Definition objects_create (model : string) (sid : pyval)
    (defaults : StripeObject) : M Row :=
  fun w => let rows := objects model (db w) in
           let obj := mkRow (fresh_pk rows) sid defaults in
           (Ok obj, write_table model (rows ++ [obj]) (Inserted model (pk obj)) w).

(** [Model.objects.get_or_create(stripe_id=sid, defaults=defaults)]:
    only [DoesNotExist] leads to creation. *)
Definition get_or_create (model : string) (sid : pyval)
    (defaults : StripeObject) : M (Row * bool) :=
  try_except
    (let* obj := objects_get model sid in ret (obj, false))
    (fun e => match e with
              | DoesNotExist _ =>
                  Some (let* obj := objects_create model sid defaults in
                        ret (obj, true))
              | _ => None
              end).

(** [obj.save()] on a stored instance: one UPDATE of the row with its
    primary key. *)
Definition save (model : string) (obj : Row) : M unit :=
  fun w => let rows := objects model (db w) in
           let rows' := (fun r => if decide (pk r = pk obj) then obj else r) <$> rows in
           (Ok tt, write_table model rows' (Updated model (pk obj)) w).
End ORM.

(* ===================================================================== *)
(** ** pinax/stripe/utils.py *)
(* ===================================================================== *)

Section Utils.
Context {Remote : Type}.
Local Abbreviation M := (@M Remote).

(** The documented zero-decimal currency set (a constant of utils.py). *)
Variable ZERO_DECIMAL_CURRENCIES : list string.

Definition is_zero_decimal (currency : pyval) : bool :=
  match currency with
  | PStr c => bool_decide (c ∈ ZERO_DECIMAL_CURRENCIES)
  | _ => false
  end.

(** Modelled from the spec: [utils.convert_amount_for_db]
    (pinax/stripe/utils.py is not among the sources).  An absent amount
    gives an absent result; for a zero-decimal currency the integer is
    returned unchanged as a decimal; otherwise it is divided by 100.
    Amounts are integers or absent; any other value is outside the
    contract and is mapped to absent here. *)
Definition convert_amount_for_db (amount currency : pyval) : pyval :=
  match amount with
  | PInt z => if is_zero_decimal currency then PDecimal z 0 else PDecimal z 2
  | _ => PNone
  end.

(** Every key of [defaults] already has that value on [obj]. *)
Definition agrees_with (obj : Row) (defaults : StripeObject) : Prop :=
  map_Forall (fun key value => fields obj !! key = Some value) defaults.

#[global] Instance agrees_with_dec obj defaults : Decision (agrees_with obj defaults).
Proof. unfold agrees_with. apply _. Defined.

(** [setattr(obj, key, defaults[key])] for every key of [defaults]. *)
Definition assign (obj : Row) (defaults : StripeObject) : Row :=
  mkRow (pk obj) (stripe_id obj) (defaults ∪ fields obj).

(** Modelled from the spec: [utils.update_with_defaults]
    (pinax/stripe/utils.py is not among the sources).  A record that was
    just created is returned unchanged.  Otherwise each key of [defaults]
    is compared with the record's current value; if any differs the new
    values are assigned and the record is persisted once.  Only keys of
    [defaults] are touched.  ([model] names the instance's class.) *)
Definition update_with_defaults (model : string) (obj : Row)
    (defaults : StripeObject) (created : bool) : M Row :=
  if created then ret obj
  else if decide (agrees_with obj defaults) then ret obj
  else let obj' := assign obj defaults in
       let* _ := save model obj' in
       ret obj'.

(** Upsert: get-or-create followed by the upserter, the way every sync
    routine ends. *)
Definition upsert (model : string) (sid : pyval) (defaults : StripeObject) : M Row :=
  let* (obj, created) := get_or_create model sid defaults in
  update_with_defaults model obj defaults created.
End Utils.

(* ===================================================================== *)
(** ** pinax/stripe/actions/orders.py and plans.py *)
(* ===================================================================== *)

(** What a Python variable holding "an order" may be bound to: a provider
    payload or a local [models.Order] instance. *)
Inductive pyobj : Type :=
| Payload (o : StripeObject)
| Instance (r : Row).

(** An element of [items]: a [models.Sku] instance or anything else. *)
Inductive item_arg : Type :=
| SkuInstance (sku : Row)
| OtherItem (v : pyval).

Section Actions.
Context {Remote : Type}.
Local Abbreviation M := (@M Remote).

(** [import stripe] *)
Variable stripe : Provider Remote.
Variable ZERO_DECIMAL_CURRENCIES : list string.
(** The field mapping of the charge sync routine (charges.py is not among
    the sources). *)
Variable charge_defaults : StripeObject -> StripeObject.
(** [models.Sku.convert_to_order_item] (models.py is not among the
    sources). *)
Variable convert_to_order_item : Row -> pyval.
(** The [stripe_order] property of [models.Order] (models.py is not among
    the sources). *)
Variable stripe_order_property : Row -> M StripeObject.

(** *** Requests to the provider, each recorded in the request log *)

Definition stripe_Order_create (params : StripeObject) : M StripeObject :=
  fun w => let '(r, rem) := Order_create stripe params (remote w) in
           (r, set_remote rem (log_call (Call_Order_create params) w)).

Definition stripe_Order_retrieve (id : pyval) : M StripeObject :=
  fun w => (Order_retrieve stripe id (remote w),
            log_call (Call_Order_retrieve id) w).

Definition stripe_Order_pay (order params : StripeObject) : M StripeObject :=
  fun w => let '(r, rem) := Order_pay stripe order params (remote w) in
           (r, set_remote rem (log_call (Call_Order_pay order params) w)).

Definition stripe_Order_return_order (order params : StripeObject) : M StripeObject :=
  fun w => let '(r, rem) := Order_return_order stripe order params (remote w) in
           (r, set_remote rem (log_call (Call_Order_return_order order params) w)).

Definition stripe_Charge_retrieve (id : pyval) : M StripeObject :=
  fun w => (Charge_retrieve stripe id (remote w),
            log_call (Call_Charge_retrieve id) w).

Definition stripe_Plan_all : M (list StripeObject) :=
  fun w => (Plan_all stripe (remote w), log_call Call_Plan_all w).

(** *** charges.sync_charge_from_stripe_data *)

(** Modelled from the spec: [charges.sync_charge_from_stripe_data]
    (pinax/stripe/actions/charges.py is not among the sources).  A sync
    routine: builds a defaults mapping from the payload, get-or-create on
    the external identifier, then the upserter. *)
Definition sync_charge_from_stripe_data (stripe_charge : StripeObject) : M Row :=
  let defaults := charge_defaults stripe_charge in
  let* (obj, created) := get_or_create "Charge" (dict_get stripe_charge "id") defaults in
  update_with_defaults "Charge" obj defaults created.

(** *** sync_order_from_stripe_data *)

(** [stripe_order.get]: a payload has the method, a model instance does
    not. *)
Definition get_method (stripe_order : pyobj) : M StripeObject :=
  match stripe_order with
  | Payload o => ret o
  | Instance _ => raise (AttributeError "get")
  end.

(** [utils.convert_amount_for_db(amount_returned, currency)
     if amount_returned else None] *)
Definition amount_returned_default (amount_returned currency : pyval) : pyval :=
  if truthy amount_returned
  then convert_amount_for_db ZERO_DECIMAL_CURRENCIES amount_returned currency
  else PNone.

(** The [defaults = dict(...)] of the order sync. *)
Definition order_defaults (o : StripeObject) (customer : Row) (charge : pyval)
    : StripeObject :=
  let amount := dict_get o "amount" in
  let amount_returned := dict_get o "amount_returned" in
  let currency := dict_get o "currency" in
  list_to_map
    [ ("amount", convert_amount_for_db ZERO_DECIMAL_CURRENCIES amount currency);
      ("amount_returned", amount_returned_default amount_returned currency);
      ("charge", charge);
      ("currency", currency);
      ("customer", PRef (pk customer));
      ("livemode", dict_get o "livemode");
      ("metadata", dict_get o "metadata");
      ("selected_shipping_method", dict_get o "selected_shipping_method");
      ("shipping", dict_get o "shipping");
      ("shipping_methods", dict_get o "shipping_methods");
      ("status", dict_get o "status");
      ("status_transitions", dict_get o "status_transitions");
      ("items", dict_get o "items") ].

Definition sync_order_from_stripe_data (stripe_order : pyobj) : M Row :=
  let* o := get_method stripe_order in
  let* customer := objects_get "Customer" (dict_get o "customer") in
  let charge := dict_get o "charge" in
  let* charge :=
    (if truthy charge
     then let* stripe_charge := stripe_Charge_retrieve charge in
          let* local := sync_charge_from_stripe_data stripe_charge in
          ret (PRef (pk local))
     else ret charge) in
  let defaults := order_defaults o customer charge in
  let* (order, created) := get_or_create "Order" (dict_get o "id") defaults in
  update_with_defaults "Order" order defaults created.

(** *** pay *)

Definition pay (order : pyobj) (source : pyval) : M Row :=
  let* stripe_order :=
    (match order with
     | Instance r => stripe_order_property r   (* hasattr(order, "stripe_order") *)
     | Payload o => ret o
     end) in
  let params : StripeObject :=
    if truthy source then {[ "source" := source ]} else ∅ in
  let* paid_order := stripe_Order_pay stripe_order params in
  sync_order_from_stripe_data (Payload paid_order).

(** *** create *)

Definition order_item (x : item_arg) : pyval :=
  match x with
  | SkuInstance sku => convert_to_order_item sku
  | OtherItem v => v
  end.

Definition create (customer : Row) (items : list item_arg)
    (currency source shipping coupon metadata : pyval)
    (pay_immediately : bool) : M Row :=
  let items := order_item <$> items in
  let params : StripeObject :=
    list_to_map [ ("customer", stripe_id customer);
                  ("currency", currency);
                  ("items", PList items);
                  ("shipping", shipping) ] in
  if pay_immediately && negb (truthy source)
  then raise (ValueError "You need a 'source' in order to use 'pay_immediately'")
  else
    let params := if truthy coupon then <["coupon" := coupon]> params else params in
    let params := if truthy metadata then <["metadata" := metadata]> params else params in
    let* created := stripe_Order_create params in
    let stripe_order := Payload created in
    let* stripe_order :=
      (if pay_immediately
       then try_except
              (let* paid := pay stripe_order source in ret (Instance paid))
              (fun e => match e with
                        | InvalidRequestError _ => Some (ret stripe_order)
                        | _ => None
                        end)
       else ret stripe_order) in
    sync_order_from_stripe_data stripe_order.

(** *** retrieve *)

(** Returns [None] (here: Coq's [None]) or the payload. *)
Definition retrieve (stripe_order_id : pyval) : M (option StripeObject) :=
  if negb (truthy stripe_order_id) then ret None
  else
    try_except
      (let* o := stripe_Order_retrieve stripe_order_id in ret (Some o))
      (fun e => match e with
                | InvalidRequestError msg =>
                    Some (if Z.geb (str_find msg "No such order") 0
                          then ret None
                          else raise e)
                | _ => None
                end).

(** *** create_return *)

Definition create_return (order : Row) (items : pyval) : M Row :=
  let* stripe_order := stripe_order_property order in
  let return_params : StripeObject :=
    if truthy items then {[ "items" := items ]} else ∅ in
  let* _ := stripe_Order_return_order stripe_order return_params in
  sync_order_from_stripe_data (Payload stripe_order).

(** *** plans.sync_plans *)

(** [plan[key]] *)
Definition getitem (o : StripeObject) (key : string) : M pyval :=
  match o !! key with
  | Some v => ret v
  | None => raise (KeyError key)
  end.

Fixpoint for_each {A} (l : list A) (body : A -> M unit) : M unit :=
  match l with
  | [] => ret tt
  | x :: l' => let* _ := body x in for_each l' body
  end.

(** The body of the loop of [sync_plans]. *)
Definition sync_plan (plan : StripeObject) : M unit :=
  let* amount := getitem plan "amount" in
  let* currency := getitem plan "currency" in
  let* currency' := getitem plan "currency" in
  let* interval := getitem plan "interval" in
  let* interval_count := getitem plan "interval_count" in
  let* name := getitem plan "name" in
  let* statement_descriptor := getitem plan "statement_descriptor" in
  let* trial_period_days := getitem plan "trial_period_days" in
  let defaults : StripeObject :=
    list_to_map
      [ ("amount", convert_amount_for_db ZERO_DECIMAL_CURRENCIES amount currency);
        ("currency", py_or currency' (PStr ""));
        ("interval", interval);
        ("interval_count", interval_count);
        ("name", name);
        ("statement_descriptor", py_or statement_descriptor (PStr ""));
        ("trial_period_days", trial_period_days) ] in
  let* id := getitem plan "id" in
  let* (obj, created) := get_or_create "Plan" id defaults in
  let* _ := update_with_defaults "Plan" obj defaults created in
  ret tt.

Definition sync_plans : M unit :=
  let* plans := stripe_Plan_all in
  for_each plans sync_plan.
End Actions.

(* ===================================================================== *)
(** ** pinax/stripe/admin.py: the custom list filters *)
(* ===================================================================== *)

(** A queryset over a model is embedded as the list of rows its SQL
    returns; a join repeats a row once per joined row. *)
Section Admin.
Variable store : Store.

(** The rows of [model] whose ForeignKey [fk] references [c]. *)
Definition related (model fk : string) (c : Row) : list Row :=
  filter (fun r => attr r fk = PRef (pk c)) (objects model store).

(** [queryset.filter(card__isnull=True)]: LEFT OUTER JOIN on the cards,
    keeping the rows for which no card was joined. *)
Definition filter_card_isnull_true (queryset : list Row) : list Row :=
  filter (fun c => related "Card" "customer" c = []) queryset.

(** [queryset.filter(card__isnull=False)]: INNER JOIN on the cards. *)
Definition filter_card_isnull_false (queryset : list Row) : list Row :=
  c ← queryset; (fun _ => c) <$> related "Card" "customer" c.

(** [CustomerHasCardListFilter.queryset]; [value] is [self.value()]. *)
Definition CustomerHasCardListFilter_queryset (value : option string)
    (queryset : list Row) : list Row :=
  if decide (value = Some "yes") then filter_card_isnull_true queryset
  else if decide (value = Some "no") then filter_card_isnull_false queryset
  else queryset.

(** The cards of the customer an invoice belongs to. *)
Definition customer_cards (invoice : Row) : list Row :=
  match attr invoice "customer" with
  | PRef customer_id =>
      filter (fun card => attr card "customer" = PRef customer_id)
             (objects "Card" store)
  | _ => []
  end.

(** [InvoiceCustomerHasCardListFilter.queryset] *)
Definition InvoiceCustomerHasCardListFilter_queryset (value : option string)
    (queryset : list Row) : list Row :=
  if decide (value = Some "yes")
  then filter (fun i => customer_cards i = []) queryset
  else if decide (value = Some "no")
  then i ← queryset; (fun _ => i) <$> customer_cards i
  else queryset.

(** [Subscription.objects.filter(status=v).values_list("customer",
    flat=True).distinct()] *)
Definition customers_with_status (v : string) : list pyval :=
  remove_dups
    ((fun s => attr s "customer") <$>
       filter (fun s => attr s "status" = PStr v) (objects "Subscription" store)).

(** [queryset.annotate(subs=Count("subscription"))] *)
Definition annotate_subs (queryset : list Row) : list (Row * nat) :=
  (fun c => (c, length (related "Subscription" "customer" c))) <$> queryset.

(** [CustomerSubscriptionStatusListFilter.queryset] *)
Definition CustomerSubscriptionStatusListFilter_queryset (value : option string)
    (queryset : list Row) : list Row :=
  match value with
  | None => queryset
  | Some v =>
      if decide (v = "none")
      then fst <$> filter (fun p => snd p = 0%nat) (annotate_subs queryset)
      else if truthy (PStr v)
      then filter (fun c => PRef (pk c) ∈ customers_with_status v) queryset
      else queryset
  end.

(** What the filters are specified against. *)
Definition has_card (c : Row) : Prop :=
  exists card, card ∈ objects "Card" store /\ attr card "customer" = PRef (pk c).

Definition has_subscription_with (P : Row -> Prop) (c : Row) : Prop :=
  exists s, s ∈ objects "Subscription" store /\
            attr s "customer" = PRef (pk c) /\ P s.
End Admin.

(** A small store used to evaluate the filters: customer 1 owns one card and
    one active subscription, customer 2 owns nothing; one invoice each. *)
Module Fixture.
Definition customer1 : Row := mkRow 1 (PStr "cus_1") ∅.
Definition customer2 : Row := mkRow 2 (PStr "cus_2") ∅.
Definition card1 : Row :=
  mkRow 1 (PStr "card_1")
        (list_to_map [("customer", PRef 1); ("fingerprint", PStr "Xt5EWLLDS7FJjR1c")]).
Definition subscription1 : Row :=
  mkRow 1 (PStr "sub_1")
        (list_to_map [("customer", PRef 1); ("status", PStr "active")]).
Definition invoice1 : Row := mkRow 1 (PStr "in_1") {[ "customer" := PRef 1 ]}.
Definition invoice2 : Row := mkRow 2 (PStr "in_2") {[ "customer" := PRef 2 ]}.
Definition store : Store :=
  list_to_map [ ("Customer", [customer1; customer2]);
                ("Card", [card1]);
                ("Subscription", [subscription1]);
                ("Invoice", [invoice1; invoice2]) ].

(** Provider payloads. *)
Definition order_unpaid : StripeObject :=
  list_to_map [ ("id", PStr "or_1"); ("customer", PStr "cus_1");
                ("amount", PInt 1500); ("currency", PStr "usd");
                ("status", PStr "created") ].
Definition order_zero_returned : StripeObject :=
  <["amount_returned" := PInt 0]> order_unpaid.
Definition order_part_returned : StripeObject :=
  <["amount_returned" := PInt 500]> order_unpaid.
Definition order_unknown_customer : StripeObject :=
  <["customer" := PStr "cus_404"]> order_unpaid.
Definition order_return : StripeObject :=
  list_to_map [ ("id", PStr "orret_1"); ("order", PStr "or_1");
                ("amount", PInt 1500) ].
Definition order_with_charge : StripeObject :=
  <["charge" := PStr "ch_1"]> order_unpaid.
Definition charge1 : StripeObject :=
  list_to_map [ ("id", PStr "ch_1"); ("amount", PInt 1500) ].
Definition plan_pro : StripeObject :=
  list_to_map [ ("id", PStr "pro"); ("amount", PInt 1000); ("currency", PStr "usd");
                ("interval", PStr "month"); ("interval_count", PInt 1);
                ("name", PStr "Pro"); ("statement_descriptor", PNone);
                ("trial_period_days", PNone) ].
Definition plan_light : StripeObject :=
  list_to_map [ ("id", PStr "light"); ("amount", PInt 500); ("currency", PStr "jpy");
                ("interval", PStr "month"); ("interval_count", PInt 1);
                ("name", PStr "Light"); ("statement_descriptor", PStr "LIGHT");
                ("trial_period_days", PInt 14) ].

(** A provider whose pay operation is rejected as an invalid request. *)
Definition stripe : Provider unit :=
  mkProvider unit
    (fun params r => (Ok order_unpaid, r))
    (fun id r =>
       if decide (id = PStr "or_1") then Ok order_unpaid
       else if decide (id = PStr "or_down")
       then Raise (StripeError "APIConnectionError" "Network error")
       else if decide (id = PStr "or_bad")
       then Raise (InvalidRequestError "Invalid order id")
       else Raise (InvalidRequestError "Request req_1: No such order: or_gone"))
    (fun order params r =>
       (Raise (InvalidRequestError "Cannot charge a customer that has no active card"), r))
    (fun order params r => (Ok order_return, r))
    (fun id r => Ok charge1)
    (fun r => Ok [plan_pro; plan_light]).

(** The same provider, with a pay operation that fails otherwise. *)
Definition stripe_declining : Provider unit :=
  mkProvider unit
    (Order_create stripe) (Order_retrieve stripe)
    (fun order params r => (Raise (StripeError "CardError" "Your card was declined."), r))
    (Order_return_order stripe) (Charge_retrieve stripe) (Plan_all stripe).

Definition ZERO_DECIMAL_CURRENCIES : list string := ["jpy"; "krw"].
Definition charge_defaults (ch : StripeObject) : StripeObject :=
  {[ "amount" := convert_amount_for_db ZERO_DECIMAL_CURRENCIES
                   (dict_get ch "amount") (dict_get ch "currency") ]}.
Definition convert_to_order_item (sku : Row) : pyval :=
  PDict [("type", PStr "sku"); ("parent", stripe_id sku)].
Definition stripe_order_property (order : Row) : M StripeObject :=
  fun w => (Order_retrieve stripe (stripe_id order) (remote w),
            log_call (Call_Order_retrieve (stripe_id order)) w).

Definition world : World unit := mkWorld tt [] store [].
End Fixture.

(* ===================================================================== *)
(** ** Notions used in the statements *)
(* ===================================================================== *)

(** The effect of the UPDATE issued by [save] on one row. *)
Definition replace_row (obj r : Row) : Row :=
  if decide (pk r = pk obj) then obj else r.

(** The outcome of [objects.get] on the rows of the model. *)
Definition get_one (model : string) (sid : pyval) (rows : list Row) : result Row :=
  match with_stripe_id sid rows with
  | [] => Raise (DoesNotExist model)
  | [r] => Ok r
  | _ :: _ :: _ => Raise (MultipleObjectsReturned model)
  end.

Section Notions.
Context {Remote : Type}.
Variable ZERO_DECIMAL_CURRENCIES : list string.
Variable convert_to_order_item : Row -> pyval.
Implicit Types (w : World Remote) (obj : Row) (defaults plan : StripeObject).

(** The keyword arguments with which [create] calls [stripe.Order.create]. *)
Definition create_params (customer : Row) (items : list item_arg)
    (currency shipping coupon metadata : pyval) : StripeObject :=
  let params : StripeObject :=
    list_to_map [ ("customer", stripe_id customer);
                  ("currency", currency);
                  ("items", PList (order_item convert_to_order_item <$> items));
                  ("shipping", shipping) ] in
  let params := if truthy coupon then <["coupon" := coupon]> params else params in
  if truthy metadata then <["metadata" := metadata]> params else params.

(** What holds after a successful upsert. *)
Definition upserted model sid defaults w obj w1 : Prop :=
  with_stripe_id sid (objects model (db w1)) = [obj] /\
  agrees_with obj defaults /\
  stripe_id obj = sid /\
  NoDup (pk <$> objects model (db w1)) /\
  remote w1 = remote w /\
  calls w1 = calls w /\
  (forall m, m <> model -> objects m (db w1) = objects m (db w)) /\
  (forall sid', sid' <> sid ->
     with_stripe_id sid' (objects model (db w1)) =
     with_stripe_id sid' (objects model (db w))).

(** A plan is in sync when its one local record agrees with [defaults]. *)
Definition plan_in_sync plan (defaults : StripeObject) w : Prop :=
  exists obj, with_stripe_id (dict_get plan "id") (objects "Plan" (db w)) = [obj] /\
              agrees_with obj defaults.

(** The loop body is the upsert of [defaults], whatever the world. *)
Definition body_upserts plan (defaults : StripeObject) : Prop :=
  forall w', sync_plan ZERO_DECIMAL_CURRENCIES plan w' =
             match upsert "Plan" (dict_get plan "id") defaults w' with
             | (Ok _, w'') => (Ok tt, w'')
             | (Raise e, w'') => (Raise e, w'')
             end.

Definition all_in_sync (plans : list StripeObject) w : Prop :=
  forall plan, plan ∈ plans ->
    exists defaults, body_upserts plan defaults /\ plan_in_sync plan defaults w.
End Notions.

(** Primary keys and external identifiers are unique in the table of
    [model] (the PRIMARY KEY and the UNIQUE constraint on [stripe_id]). *)
Definition unique_keys {Remote : Type} (model : string) (w : World Remote) : Prop :=
  NoDup (pk <$> objects model (db w)) /\
  NoDup (stripe_id <$> objects model (db w)).

(** The fields of a remote order that the order sync copies as they are. *)
Definition copied_order_fields : list string :=
  [ "currency"; "livemode"; "metadata"; "selected_shipping_method"; "shipping";
    "shipping_methods"; "status"; "status_transitions"; "items" ].

(* ===================================================================== *)
(** ** orders.py: update, sync_orders, sync_orders_from_customer *)
(* ===================================================================== *)

Section MoreActions.
Context {Remote : Type}.
Local Abbreviation M := (@M Remote).

Variable stripe : Provider Remote.
Variable ZERO_DECIMAL_CURRENCIES : list string.
Variable charge_defaults : StripeObject -> StripeObject.
Variable stripe_order_property : Row -> M StripeObject.
(** The [stripe_customer] property of [models.Customer] (models.py is not
    among the sources). *)
Variable stripe_customer_property : Row -> M StripeObject.
(** [stripe_order.save()] of the SDK: the changed fields are sent and the
    object is refreshed in place from the answer; the result is the
    content of the object afterwards. *)
Variable Order_save : StripeObject -> Remote -> result StripeObject * Remote.
(** [stripe.Order.auto_paging_iter] of the SDK, called with the optional
    [customer] keyword: the call raises
    ([AttributeError] when the SDK has no such method), or gives an
    iterator, embedded as the orders it yields and the error, if any, that
    ends the iteration. *)
Variable Order_auto_paging_iter :
  option StripeObject -> Remote -> result (list StripeObject * option exn).
(** The [data] of [stripe.Order.list], called with the same keyword. *)
Variable Order_list : option StripeObject -> Remote -> result (list StripeObject).

Definition stripe_Order_save (stripe_order : StripeObject) : M StripeObject :=
  fun w => let '(r, rem) := Order_save stripe_order (remote w) in
           (r, set_remote rem w).

Definition stripe_Order_auto_paging_iter (customer : option StripeObject)
    : M (list StripeObject * option exn) :=
  fun w => (Order_auto_paging_iter customer (remote w), w).

Definition stripe_Order_list (customer : option StripeObject) : M (list StripeObject) :=
  fun w => (Order_list customer (remote w), w).

(** [if value: stripe_order.<name> = value] *)
Definition set_if_truthy (name : string) (value : pyval) (stripe_order : StripeObject)
    : StripeObject :=
  if truthy value then <[name := value]> stripe_order else stripe_order.

Definition update (order : Row)
    (coupon metadata selected_shipping_method shipping status : pyval) : M Row :=
  let* stripe_order := stripe_order_property order in
  let stripe_order := set_if_truthy "coupon" coupon stripe_order in
  let stripe_order := set_if_truthy "metadata" metadata stripe_order in
  let stripe_order :=
    set_if_truthy "selected_shipping_method" selected_shipping_method stripe_order in
  let stripe_order := set_if_truthy "shipping" shipping stripe_order in
  let stripe_order := set_if_truthy "status" status stripe_order in
  let* stripe_order := stripe_Order_save stripe_order in
  sync_order_from_stripe_data stripe ZERO_DECIMAL_CURRENCIES charge_defaults
    (Payload stripe_order).

(** [try: orders = stripe.Order.auto_paging_iter(...)
     except AttributeError: orders = iter(stripe.Order.list(...).data)] *)
Definition orders_iterator (customer : option StripeObject)
    : M (list StripeObject * option exn) :=
  try_except
    (stripe_Order_auto_paging_iter customer)
    (fun e => match e with
              | AttributeError _ =>
                  Some (let* data := stripe_Order_list customer in ret (data, None))
              | _ => None
              end).

(** [for stripe_order in orders: sync_order_from_stripe_data(stripe_order)] *)
Definition sync_each (orders : list StripeObject * option exn) : M unit :=
  let* _ :=
    for_each orders.1
      (fun stripe_order =>
         let* _ := sync_order_from_stripe_data stripe ZERO_DECIMAL_CURRENCIES
                     charge_defaults (Payload stripe_order) in
         ret tt) in
  match orders.2 with
  | Some e => raise e
  | None => ret tt
  end.

Definition sync_orders : M unit :=
  let* orders := orders_iterator None in
  sync_each orders.

Definition sync_orders_from_customer (customer : Row) : M unit :=
  let* stripe_customer := stripe_customer_property customer in
  let* orders := orders_iterator (Some stripe_customer) in
  sync_each orders.
End MoreActions.

(** The keys that [update] may assign. *)
Definition updatable_fields : list string :=
  [ "coupon"; "metadata"; "selected_shipping_method"; "shipping"; "status" ].

(** A record with external identifier [sid] is stored for [model]. *)
Definition has_record {Remote : Type} (model : string) (sid : pyval)
    (w : World Remote) : Prop :=
  exists r, r ∈ objects model (db w) /\ stripe_id r = sid.

(** The keys of a plan payload, in the order [sync_plans] reads them. *)
Definition plan_keys : list string :=
  [ "amount"; "currency"; "interval"; "interval_count"; "name";
    "statement_descriptor"; "trial_period_days"; "id" ].

(** The first of them that the payload lacks. *)
Definition first_missing (plan : StripeObject) : option string :=
  List.find (fun key => bool_decide (plan !! key = None)) plan_keys.

(** The [defaults] of the plan sync for a payload that has every key. *)
Definition plan_defaults (ZERO_DECIMAL_CURRENCIES : list string)
    (plan : StripeObject) : StripeObject :=
  list_to_map
    [ ("amount", convert_amount_for_db ZERO_DECIMAL_CURRENCIES
                   (dict_get plan "amount") (dict_get plan "currency"));
      ("currency", py_or (dict_get plan "currency") (PStr ""));
      ("interval", dict_get plan "interval");
      ("interval_count", dict_get plan "interval_count");
      ("name", dict_get plan "name");
      ("statement_descriptor", py_or (dict_get plan "statement_descriptor") (PStr ""));
      ("trial_period_days", dict_get plan "trial_period_days") ].

(** More fixture data: a provider that accepts payments, and one that
    refuses to create orders. *)
Module Sample.
Definition order_paid : StripeObject :=
  <["status" := PStr "paid"]> Fixture.order_unpaid.

Definition stripe_paying : Provider unit :=
  mkProvider unit
    (Order_create Fixture.stripe) (Order_retrieve Fixture.stripe)
    (fun order params r => (Ok order_paid, r))
    (Order_return_order Fixture.stripe) (Charge_retrieve Fixture.stripe)
    (Plan_all Fixture.stripe).

Definition stripe_refusing : Provider unit :=
  mkProvider unit
    (fun params r => (Raise (InvalidRequestError "No such customer: cus_1"), r))
    (Order_retrieve Fixture.stripe) (Order_pay Fixture.stripe)
    (Order_return_order Fixture.stripe) (Charge_retrieve Fixture.stripe)
    (Plan_all Fixture.stripe).

Definition sku1 : Row := mkRow 1 (PStr "sku_1") ∅.

(** A second order of customer 1, and an SDK without [auto_paging_iter]
    whose listing holds one order of an unknown customer in the middle. *)
Definition order_second : StripeObject :=
  <["id" := PStr "or_2"]> Fixture.order_unpaid.
Definition Order_save (o : StripeObject) (r : unit) : result StripeObject * unit :=
  (Ok o, r).
Definition Order_auto_paging_iter (customer : option StripeObject) (r : unit)
    : result (list StripeObject * option exn) :=
  Raise (AttributeError "auto_paging_iter").
Definition Order_list (customer : option StripeObject) (r : unit)
    : result (list StripeObject) :=
  match customer with
  | None => Ok [Fixture.order_unpaid; Fixture.order_unknown_customer; order_second]
  | Some _ => Ok [Fixture.order_unpaid; order_second]
  end.
Definition stripe_customer_property (customer : Row) : @M unit StripeObject :=
  fun w => (Ok {[ "id" := stripe_id customer ]}, w).
End Sample.

(* ===================================================================== *)
(** * Properties *)
(* ===================================================================== *)

(** ** The building blocks on small inputs *)

Example str_find_found :
  str_find "Request req_1: No such order: or_gone" "No such order" = 15.
Proof. reflexivity. Qed.

Example str_find_missing : str_find "Invalid order id" "No such order" = -1.
Proof. reflexivity. Qed.

Example truthy_zero : truthy (PInt 0) = false /\ truthy (PInt 500) = true.
Proof. split; reflexivity. Qed.

Example convert_usd :
  convert_amount_for_db ["jpy"; "krw"] (PInt 1500) (PStr "usd") = PDecimal 1500 2.
Proof. reflexivity. Qed.

Example convert_jpy :
  convert_amount_for_db ["jpy"; "krw"] (PInt 1500) (PStr "jpy") = PDecimal 1500 0.
Proof. reflexivity. Qed.

Example convert_absent :
  convert_amount_for_db ["jpy"; "krw"] PNone (PStr "usd") = PNone.
Proof. reflexivity. Qed.

Example subscription_filter_none :
  CustomerSubscriptionStatusListFilter_queryset Fixture.store (Some "none")
    [Fixture.customer1; Fixture.customer2] = [Fixture.customer2].
Proof. vm_compute. reflexivity. Qed.

Example subscription_filter_active :
  CustomerSubscriptionStatusListFilter_queryset Fixture.store (Some "active")
    [Fixture.customer1; Fixture.customer2] = [Fixture.customer1].
Proof. vm_compute. reflexivity. Qed.

(** ** Administrative filters *)

Lemma related_nil store model fk c :
  related store model fk c = [] <->
  forall r, r ∈ objects model store -> attr r fk <> PRef (pk c).
Proof.
  unfold related. split.
  - intros E r Hr Ha. by apply (filter_nil_not_elem_of _ _ r E).
  - intros H. apply elem_of_nil_inv. intros r [Ha Hr]%list_elem_of_filter.
    by apply (H r).
Qed.

Lemma no_card_iff store c :
  related store "Card" "customer" c = [] <-> ~ has_card store c.
Proof.
  rewrite related_nil. unfold has_card. split.
  - intros H (card & Hc & Ha). by apply (H card).
  - intros H r Hr Ha. apply H. eauto.
Qed.

(** What [has_card=yes] selects: the customers without any card. *)
Lemma CustomerHasCardListFilter_yes store queryset c :
  c ∈ CustomerHasCardListFilter_queryset store (Some "yes") queryset <->
  c ∈ queryset /\ ~ has_card store c.
Proof.
  unfold CustomerHasCardListFilter_queryset, filter_card_isnull_true.
  rewrite decide_True by done.
  rewrite list_elem_of_filter, no_card_iff. tauto.
Qed.

(** What [has_card=no] selects: the customers with at least one card. *)
Lemma CustomerHasCardListFilter_no store queryset c :
  c ∈ CustomerHasCardListFilter_queryset store (Some "no") queryset <->
  c ∈ queryset /\ has_card store c.
Proof.
  unfold CustomerHasCardListFilter_queryset, filter_card_isnull_false.
  rewrite decide_False by done. rewrite decide_True by done.
  rewrite list_elem_of_bind. split.
  - intros (c' & Hin & Hc'). apply list_elem_of_fmap in Hin as (card & -> & Hcard).
    split; [done|]. apply list_elem_of_filter in Hcard as [Ha Hcard].
    exists card. done.
  - intros [Hc (card & Hcard & Ha)]. exists c. split; [|done].
    apply list_elem_of_fmap. exists card. split; [done|].
    apply list_elem_of_filter. done.
Qed.

(** C1 (the code departs from the claim): on a store where customer 1 owns
    a card and customer 2 owns none, [has_card=yes] returns customer 2 only
    and [has_card=no] returns customer 1 only, the reverse of what the
    labels "Has Card" and "Does Not Have a Card" announce; the invoice
    filter does the same through the invoice's customer. *)
Theorem has_card_filter_is_inverted :
  has_card Fixture.store Fixture.customer1 /\
  ~ has_card Fixture.store Fixture.customer2 /\
  CustomerHasCardListFilter_queryset Fixture.store (Some "yes")
    [Fixture.customer1; Fixture.customer2] = [Fixture.customer2] /\
  CustomerHasCardListFilter_queryset Fixture.store (Some "no")
    [Fixture.customer1; Fixture.customer2] = [Fixture.customer1] /\
  InvoiceCustomerHasCardListFilter_queryset Fixture.store (Some "yes")
    [Fixture.invoice1; Fixture.invoice2] = [Fixture.invoice2] /\
  InvoiceCustomerHasCardListFilter_queryset Fixture.store (Some "no")
    [Fixture.invoice1; Fixture.invoice2] = [Fixture.invoice1].
Proof.
  split; [|split].
  - exists Fixture.card1. split; [|reflexivity].
    change (objects "Card" Fixture.store) with [Fixture.card1]. apply list_elem_of_singleton. reflexivity.
  - intros (card & Hc & Ha).
    change (objects "Card" Fixture.store) with [Fixture.card1] in Hc.
    apply list_elem_of_singleton in Hc as ->. vm_compute in Ha. discriminate.
  - repeat split; vm_compute; reflexivity.
Qed.

Lemma truthy_PStr v : truthy (PStr v) = true <-> v <> "".
Proof. simpl. rewrite negb_true_iff. apply String.eqb_neq. Qed.

Lemma in_customers_with_status store v c :
  PRef (pk c) ∈ customers_with_status store v <->
  has_subscription_with store (fun s => attr s "status" = PStr v) c.
Proof.
  unfold customers_with_status, has_subscription_with.
  rewrite elem_of_remove_dups, list_elem_of_fmap. split.
  - intros (s & Hs & [Hst Hin]%list_elem_of_filter). exists s. done.
  - intros (s & Hin & Hc & Hst). exists s. split; [done|].
    apply list_elem_of_filter. done.
Qed.

Lemma count_zero_iff store c :
  length (related store "Subscription" "customer" c) = 0%nat <->
  ~ has_subscription_with store (fun _ => True) c.
Proof.
  rewrite length_zero_iff_nil, related_nil. unfold has_subscription_with. split.
  - intros H (s & Hs & Ha & _). by apply (H s).
  - intros H s Hs Ha. apply H. eauto.
Qed.

(** C7: a selected status [v] (other than the special value and the empty
    selection) keeps exactly the customers of the base queryset that have a
    subscription with status [v]; "none" keeps exactly those with no
    subscription at all; without a value the queryset is returned as is. *)
Theorem subscription_status_filter store (queryset : list Row) (c : Row) (v : string) :
  v <> "none" -> v <> "" ->
  (c ∈ CustomerSubscriptionStatusListFilter_queryset store (Some v) queryset <->
   c ∈ queryset /\ has_subscription_with store (fun s => attr s "status" = PStr v) c) /\
  (c ∈ CustomerSubscriptionStatusListFilter_queryset store (Some "none") queryset <->
   c ∈ queryset /\ ~ has_subscription_with store (fun _ => True) c) /\
  CustomerSubscriptionStatusListFilter_queryset store None queryset = queryset /\
  CustomerSubscriptionStatusListFilter_queryset store (Some "") queryset = queryset.
Proof.
  intros Hnone Hempty. repeat split; try done.
  - unfold CustomerSubscriptionStatusListFilter_queryset in H.
    rewrite decide_False in H by done.
    rewrite (proj2 (truthy_PStr v) Hempty) in H.
    by apply list_elem_of_filter in H as [_ ?].
  - unfold CustomerSubscriptionStatusListFilter_queryset in H.
    rewrite decide_False in H by done.
    rewrite (proj2 (truthy_PStr v) Hempty) in H.
    apply list_elem_of_filter in H as [H _]. by apply in_customers_with_status.
  - intros [Hin Hsub]. unfold CustomerSubscriptionStatusListFilter_queryset.
    rewrite decide_False by done.
    rewrite (proj2 (truthy_PStr v) Hempty).
    apply list_elem_of_filter. split; [|done]. by apply in_customers_with_status.
  - unfold CustomerSubscriptionStatusListFilter_queryset, annotate_subs in H.
    rewrite decide_True in H by done.
    apply list_elem_of_fmap in H as ([c' n] & -> & [Hn Hin]%list_elem_of_filter).
    apply list_elem_of_fmap in Hin as (c'' & [= -> ->] & Hin). done.
  - unfold CustomerSubscriptionStatusListFilter_queryset, annotate_subs in H.
    rewrite decide_True in H by done.
    apply list_elem_of_fmap in H as ([c' n] & -> & [Hn Hin]%list_elem_of_filter).
    apply list_elem_of_fmap in Hin as (c'' & [= -> ->] & Hin).
    by apply count_zero_iff.
  - intros [Hin Hsub]. unfold CustomerSubscriptionStatusListFilter_queryset, annotate_subs.
    rewrite decide_True by done.
    apply list_elem_of_fmap.
    exists (c, length (related store "Subscription" "customer" c)). split; [done|].
    apply list_elem_of_filter. split; [by apply count_zero_iff|].
    apply list_elem_of_fmap. exists c. done.
Qed.

Lemma subscription_status_filter_witness :
  Fixture.customer1 ∈
    CustomerSubscriptionStatusListFilter_queryset Fixture.store (Some "active")
      [Fixture.customer1; Fixture.customer2] <->
  Fixture.customer1 ∈ [Fixture.customer1; Fixture.customer2] /\
  has_subscription_with Fixture.store (fun s => attr s "status" = PStr "active")
    Fixture.customer1.
Proof.
  refine (proj1 (subscription_status_filter Fixture.store
                   [Fixture.customer1; Fixture.customer2] Fixture.customer1
                   "active" _ _)); discriminate.
Defined.

(** ** [str.find] finds exactly the occurrences *)

Lemma app_String a (s t : string) : String a s +:+ t = String a (s +:+ t).
Proof. reflexivity. Qed.

Lemma app_empty (t : string) : "" +:+ t = t.
Proof. reflexivity. Qed.

Lemma prefix_app sub s :
  String.prefix sub s = true <-> exists post, s = sub +:+ post.
Proof.
  revert s. induction sub as [|a sub IH]; intros s; simpl.
  - split; [intros _; by exists s | by destruct s].
  - destruct s as [|b s]; simpl.
    + split; [done | intros [post E]; by rewrite app_String in E].
    + destruct (Ascii.ascii_dec a b) as [->|Hab].
      * rewrite IH. split; intros [post E]; exists post;
          rewrite app_String in *; congruence.
      * split; [done | intros [post E]; rewrite app_String in E; congruence].
Qed.

Lemma prefix_contains sub s : String.prefix sub s = true -> contains s sub.
Proof. intros [post E]%prefix_app. exists "", post. by rewrite app_empty. Qed.

Lemma contains_nil_prefix sub : contains "" sub -> String.prefix sub "" = true.
Proof.
  intros (pre & post & E). destruct pre; [|by rewrite app_String in E].
  rewrite app_empty in E. apply prefix_app. by exists post.
Qed.

Lemma contains_cons a s sub :
  String.prefix sub (String a s) = false ->
  contains (String a s) sub <-> contains s sub.
Proof.
  intros Hp. split.
  - intros (pre & post & E). destruct pre as [|b pre].
    + rewrite app_empty in E.
      assert (String.prefix sub (String a s) = true) as Ht
        by (apply prefix_app; by exists post).
      congruence.
    + rewrite app_String in E. injection E as -> ->. by exists pre, post.
  - intros (pre & post & ->). exists (String a pre), post. by rewrite app_String.
Qed.

Lemma find_from_spec sub s i :
  0 <= i ->
  (contains s sub /\ 0 <= find_from sub s i) \/
  (~ contains s sub /\ find_from sub s i = -1).
Proof.
  revert i. induction s as [|a s IH]; intros i Hi; cbn [find_from].
  - destruct (String.prefix sub "") eqn:Hp.
    + left. split; [by apply prefix_contains | done].
    + right. split; [|done]. intros Hc%contains_nil_prefix. congruence.
  - destruct (String.prefix sub (String a s)) eqn:Hp.
    + left. split; [by apply prefix_contains | done].
    + rewrite (contains_cons _ _ _ Hp). apply IH. lia.
Qed.

Lemma str_find_contains s sub :
  Z.geb (str_find s sub) 0 = true <-> contains s sub.
Proof.
  unfold str_find. rewrite Z.geb_le.
  destruct (find_from_spec sub s 0 ltac:(done)) as [[Hc Hge]|[Hc Heq]].
  - tauto.
  - rewrite Heq. split; [lia | tauto].
Qed.

(** ** Order actions *)

Section ActionProperties.
Context {Remote : Type}.
Variable stripe : Provider Remote.
Variable ZERO_DECIMAL_CURRENCIES : list string.
Variable charge_defaults : StripeObject -> StripeObject.
Variable convert_to_order_item : Row -> pyval.
Variable stripe_order_property : Row -> @M Remote StripeObject.

Local Abbreviation sync_order :=
  (sync_order_from_stripe_data stripe ZERO_DECIMAL_CURRENCIES charge_defaults).
Local Abbreviation create' :=
  (create stripe ZERO_DECIMAL_CURRENCIES charge_defaults convert_to_order_item
          stripe_order_property).

Lemma objects_get_none model sid (w : World Remote) :
  (forall r, r ∈ objects model (db w) -> stripe_id r <> sid) ->
  objects_get model sid w = (Raise (DoesNotExist model), w).
Proof.
  intros H. unfold objects_get, with_stripe_id.
  replace (filter _ _) with (@nil Row); [done|].
  symmetry. apply elem_of_nil_inv. intros r [Hs Hr]%list_elem_of_filter.
  by apply (H r).
Qed.

(** C3: immediate payment without a source is refused with [ValueError]
    and the world, in particular the request log and the provider state,
    is exactly as before the call. *)
Theorem create_without_source_raises customer items currency source shipping
    coupon metadata (w : World Remote) :
  truthy source = false ->
  create' customer items currency source shipping coupon metadata true w =
    (Raise (ValueError "You need a 'source' in order to use 'pay_immediately'"), w).
Proof. intros Hs. unfold create. by rewrite Hs. Qed.

(** C5: when no local Customer carries the payload's customer identifier,
    the order sync raises the lookup failure and leaves the world as it
    was: no customer or order is written and no request is made. *)
Theorem sync_order_unknown_customer (o : StripeObject) (w : World Remote) :
  (forall c, c ∈ objects "Customer" (db w) ->
             stripe_id c <> dict_get o "customer") ->
  sync_order (Payload o) w = (Raise (DoesNotExist "Customer"), w).
Proof.
  intros H. unfold sync_order_from_stripe_data, get_method, bind, ret.
  by rewrite (objects_get_none _ _ _ H).
Qed.
End ActionProperties.

(** ** The store under get-or-create and the upserter *)

Lemma objects_insert_eq model rows (d : Store) :
  objects model (<[model := rows]> d) = rows.
Proof. unfold objects. by rewrite lookup_insert_eq. Qed.

Lemma objects_insert_ne model model' rows (d : Store) :
  model <> model' -> objects model' (<[model := rows]> d) = objects model' d.
Proof. intros H. unfold objects. by rewrite lookup_insert_ne. Qed.

Lemma le_fresh_pk (rows : list Row) r : r ∈ rows -> (pk r < fresh_pk rows)%nat.
Proof.
  unfold fresh_pk. induction rows as [|x rows IH]; intros Hr.
  - by apply elem_of_nil in Hr.
  - rewrite fmap_cons. cbn [foldr].
    apply elem_of_cons in Hr as [->|Hr]; [|specialize (IH Hr)]; lia.
Qed.

Lemma NoDup_pk_created (rows : list Row) sid defaults :
  NoDup (pk <$> rows) ->
  NoDup (pk <$> (rows ++ [mkRow (fresh_pk rows) sid defaults])%list).
Proof.
  intros Hnd. rewrite fmap_app. apply NoDup_app. split; [done|]. split.
  - intros n (r & -> & Hr)%list_elem_of_fmap Hn. simpl in Hn.
    apply list_elem_of_singleton in Hn. apply le_fresh_pk in Hr. lia.
  - simpl. apply NoDup_singleton.
Qed.


Lemma pk_replace_row obj (rows : list Row) : pk <$> (replace_row obj <$> rows) = pk <$> rows.
Proof.
  rewrite <- list_fmap_compose. apply list_fmap_ext. intros i r _. simpl.
  unfold replace_row. by case_decide.
Qed.

Lemma pk_unique (rows : list Row) r r' :
  NoDup (pk <$> rows) -> r ∈ rows -> r' ∈ rows -> pk r = pk r' -> r = r'.
Proof.
  induction rows as [|x rows IH]; intros Hnd Hr Hr' Hpk.
  - by apply elem_of_nil in Hr.
  - rewrite fmap_cons in Hnd. apply NoDup_cons in Hnd as [Hx Hnd].
    apply elem_of_cons in Hr as [->|Hr]; apply elem_of_cons in Hr' as [->|Hr'].
    + done.
    + destruct Hx. rewrite Hpk. by apply list_elem_of_fmap_2.
    + destruct Hx. rewrite <- Hpk. by apply list_elem_of_fmap_2.
    + by apply IH.
Qed.

Lemma filter_replace_in (P : Row -> Prop) `{!forall r, Decision (P r)} obj
    (rows : list Row) :
  (forall r, r ∈ rows -> pk r = pk obj -> P r) -> P obj ->
  filter P (replace_row obj <$> rows) = replace_row obj <$> filter P rows.
Proof.
  intros Hsame Hobj. induction rows as [|x rows IH]; [done|].
  rewrite fmap_cons. unfold replace_row at 1. case_decide as Hpk.
  - rewrite filter_cons_True by done.
    rewrite (filter_cons_True P x) by (apply Hsame; [apply elem_of_cons; by left|done]).
    rewrite fmap_cons. unfold replace_row at 2. rewrite decide_True by done.
    f_equal. apply IH. intros r Hr. apply Hsame. apply elem_of_cons. by right.
  - rewrite !filter_cons. case_decide.
    + rewrite fmap_cons. unfold replace_row at 2. rewrite decide_False by done.
      f_equal. apply IH. intros r Hr. apply Hsame. apply elem_of_cons. by right.
    + apply IH. intros r Hr. apply Hsame. apply elem_of_cons. by right.
Qed.

Lemma filter_replace_out (P : Row -> Prop) `{!forall r, Decision (P r)} obj
    (rows : list Row) :
  (forall r, r ∈ rows -> pk r = pk obj -> ~ P r) -> ~ P obj ->
  filter P (replace_row obj <$> rows) = filter P rows.
Proof.
  intros Hsame Hobj. induction rows as [|x rows IH]; [done|].
  rewrite fmap_cons. unfold replace_row at 1. case_decide as Hpk.
  - rewrite filter_cons_False by done.
    rewrite (filter_cons_False P x) by (apply Hsame; [apply elem_of_cons; by left|done]).
    apply IH. intros r Hr. apply Hsame. apply elem_of_cons. by right.
  - rewrite !filter_cons. case_decide.
    + f_equal. apply IH. intros r Hr. apply Hsame. apply elem_of_cons. by right.
    + apply IH. intros r Hr. apply Hsame. apply elem_of_cons. by right.
Qed.

Lemma agrees_with_assign obj defaults : agrees_with (assign obj defaults) defaults.
Proof.
  intros key value Hk. simpl. by apply lookup_union_Some_l.
Qed.

Lemma agrees_with_created n sid defaults : agrees_with (mkRow n sid defaults) defaults.
Proof. by intros key value Hk. Qed.

Lemma agrees_with_attr obj defaults key value :
  agrees_with obj defaults -> defaults !! key = Some value -> attr obj key = value.
Proof. intros H Hk. unfold attr, dict_get. by rewrite (H key value Hk). Qed.

Section UpsertProperties.
Context {Remote : Type}.
Implicit Types (w : World Remote) (obj : Row) (defaults : StripeObject).

Lemma upsert_created model sid defaults w :
  with_stripe_id sid (objects model (db w)) = [] ->
  upsert model sid defaults w =
    (Ok (mkRow (fresh_pk (objects model (db w))) sid defaults),
     write_table model
       (objects model (db w) ++ [mkRow (fresh_pk (objects model (db w))) sid defaults])
       (Inserted model (fresh_pk (objects model (db w)))) w).
Proof.
  intros H. unfold upsert, get_or_create, try_except, bind, objects_get.
  by rewrite H.
Qed.

Lemma upsert_found model sid defaults w obj :
  with_stripe_id sid (objects model (db w)) = [obj] ->
  upsert model sid defaults w =
    if decide (agrees_with obj defaults) then (Ok obj, w)
    else (Ok (assign obj defaults),
          write_table model
            (replace_row (assign obj defaults) <$> objects model (db w))
            (Updated model (pk obj)) w).
Proof.
  intros H. unfold upsert, get_or_create, try_except, bind, objects_get.
  rewrite H. simpl. unfold update_with_defaults. by case_decide.
Qed.

Lemma upsert_multiple model sid defaults w r1 r2 l :
  with_stripe_id sid (objects model (db w)) = r1 :: r2 :: l ->
  upsert model sid defaults w = (Raise (MultipleObjectsReturned model), w).
Proof.
  intros H. unfold upsert, get_or_create, try_except, bind, objects_get.
  by rewrite H.
Qed.


Lemma with_stripe_id_elem sid (rows : list Row) obj :
  obj ∈ with_stripe_id sid rows <-> stripe_id obj = sid /\ obj ∈ rows.
Proof.
  unfold with_stripe_id.
  apply (list_elem_of_filter (fun r => stripe_id r = sid)).
Qed.

Lemma upsert_post model sid defaults w obj w1 :
  NoDup (pk <$> objects model (db w)) ->
  upsert model sid defaults w = (Ok obj, w1) ->
  upserted model sid defaults w obj w1.
Proof.
  intros Hnd Hup.
  destruct (with_stripe_id sid (objects model (db w))) as [|r [|r2 l]] eqn:Hget.
  - rewrite (upsert_created _ _ _ _ Hget) in Hup. injection Hup as <- <-.
    unfold upserted, write_table; simpl. rewrite objects_insert_eq.
    split_and!.
    + unfold with_stripe_id in *. rewrite filter_app, Hget.
      by rewrite filter_cons_True.
    + apply agrees_with_created.
    + done.
    + by apply NoDup_pk_created.
    + done.
    + done.
    + intros m Hm. by apply objects_insert_ne.
    + intros sid' Hs. unfold with_stripe_id. rewrite filter_app.
      rewrite filter_cons_False by (simpl; congruence).
      by rewrite filter_nil, app_nil_r.
  - assert (stripe_id r = sid /\ r ∈ objects model (db w)) as [Hsid Hin].
    { apply with_stripe_id_elem. rewrite Hget. by apply list_elem_of_singleton. }
    rewrite (upsert_found _ _ _ _ _ Hget) in Hup. case_decide as Hag.
    + injection Hup as <- <-. unfold upserted. split_and!; done.
    + injection Hup as <- <-. unfold upserted, write_table; simpl.
      rewrite objects_insert_eq.
      assert (forall x, x ∈ objects model (db w) ->
                        pk x = pk (assign r defaults) -> x = r) as Hsame.
      { intros x Hx Hpk. by apply (pk_unique (objects model (db w))). }
      split_and!.
      * unfold with_stripe_id in *. rewrite filter_replace_in.
        -- rewrite Hget. simpl. unfold replace_row. by rewrite decide_True.
        -- intros x Hx Hpk. by rewrite (Hsame x Hx Hpk).
        -- done.
      * apply agrees_with_assign.
      * done.
      * by rewrite pk_replace_row.
      * done.
      * done.
      * intros m Hm. by apply objects_insert_ne.
      * intros sid' Hs. unfold with_stripe_id. apply filter_replace_out.
        -- intros x Hx Hpk. rewrite (Hsame x Hx Hpk). congruence.
        -- simpl. congruence.
  - by rewrite (upsert_multiple _ _ _ _ _ _ _ Hget) in Hup.
Qed.

(** A second upsert with the same defaults finds the record in agreement
    and leaves the world untouched. *)
Lemma upsert_again model sid defaults w obj :
  with_stripe_id sid (objects model (db w)) = [obj] ->
  agrees_with obj defaults ->
  upsert model sid defaults w = (Ok obj, w).
Proof.
  intros Hget Hag. rewrite (upsert_found _ _ _ _ _ Hget). by rewrite decide_True.
Qed.
End UpsertProperties.

(** ** The order sync routine *)


Section OrderSync.
Context {Remote : Type}.
Variable stripe : Provider Remote.
Variable ZERO_DECIMAL_CURRENCIES : list string.
Variable charge_defaults : StripeObject -> StripeObject.
Implicit Types (w : World Remote) (o : StripeObject).

Local Abbreviation sync_order :=
  (sync_order_from_stripe_data stripe ZERO_DECIMAL_CURRENCIES charge_defaults).
Local Abbreviation defaults_of :=
  (order_defaults ZERO_DECIMAL_CURRENCIES).

Lemma objects_get_eq model sid w :
  objects_get model sid w = (get_one model sid (objects model (db w)), w).
Proof.
  unfold objects_get, get_one.
  by destruct (with_stripe_id sid (objects model (db w))) as [|r [|r2 l]].
Qed.

(** The routine, step by step. *)
Lemma sync_order_unfold o w :
  sync_order (Payload o) w =
  match get_one "Customer" (dict_get o "customer") (objects "Customer" (db w)) with
  | Raise e => (Raise e, w)
  | Ok customer =>
      if truthy (dict_get o "charge")
      then
        let w0 := log_call (Call_Charge_retrieve (dict_get o "charge")) w in
        match Charge_retrieve stripe (dict_get o "charge") (remote w) with
        | Raise e => (Raise e, w0)
        | Ok ch =>
            match upsert "Charge" (dict_get ch "id") (charge_defaults ch) w0 with
            | (Raise e, w') => (Raise e, w')
            | (Ok local, w') =>
                upsert "Order" (dict_get o "id")
                       (defaults_of o customer (PRef (pk local))) w'
            end
        end
      else upsert "Order" (dict_get o "id")
                  (defaults_of o customer (dict_get o "charge")) w
  end.
Proof.
  unfold sync_order_from_stripe_data, get_method.
  unfold bind at 1. unfold ret at 1. unfold bind at 1.
  rewrite objects_get_eq.
  destruct (get_one _ _ _) as [customer|e]; [|done].
  destruct (truthy (dict_get o "charge")).
  - unfold bind at 1. unfold bind at 1. unfold stripe_Charge_retrieve.
    destruct (Charge_retrieve stripe _ _) as [ch|e]; [|done].
    unfold bind at 1. unfold sync_charge_from_stripe_data.
    change (bind (get_or_create "Charge" (dict_get ch "id") (charge_defaults ch)) _)
      with (@upsert Remote "Charge" (dict_get ch "id") (charge_defaults ch)).
    destruct (upsert "Charge" _ _ _) as [[local|e] w']; done.
  - done.
Qed.

Lemma upsert_result model sid (defaults : StripeObject) w obj w1 :
  upsert model sid defaults w = (Ok obj, w1) ->
  agrees_with obj defaults /\ stripe_id obj = sid /\ obj ∈ objects model (db w1).
Proof.
  intros Hup.
  destruct (with_stripe_id sid (objects model (db w))) as [|r [|r2 l]] eqn:Hget.
  - rewrite (upsert_created _ _ _ _ Hget) in Hup. injection Hup as <- <-.
    split_and!; [apply agrees_with_created|done|].
    unfold write_table; simpl. rewrite objects_insert_eq.
    apply elem_of_app. right. by apply list_elem_of_singleton.
  - assert (stripe_id r = sid /\ r ∈ objects model (db w)) as [Hsid Hin].
    { apply with_stripe_id_elem. rewrite Hget. by apply list_elem_of_singleton. }
    rewrite (upsert_found _ _ _ _ _ Hget) in Hup. case_decide as Hag.
    + by injection Hup as <- <-.
    + injection Hup as <- <-. split_and!; [apply agrees_with_assign|done|].
      unfold write_table; simpl. rewrite objects_insert_eq.
      apply list_elem_of_fmap. exists r. split; [|done].
      unfold replace_row. by rewrite decide_True.
  - by rewrite (upsert_multiple _ _ _ _ _ _ _ Hget) in Hup.
Qed.

(** A successful order sync returns a stored Order that carries the
    payload's identifier and every value of the defaults mapping. *)
Lemma sync_order_result o w order w1 :
  sync_order (Payload o) w = (Ok order, w1) ->
  exists customer charge,
    agrees_with order (defaults_of o customer charge) /\
    stripe_id order = dict_get o "id" /\
    order ∈ objects "Order" (db w1).
Proof.
  rewrite sync_order_unfold.
  destruct (get_one _ _ _) as [customer|e]; [|done].
  destruct (truthy (dict_get o "charge")).
  - cbv zeta. destruct (Charge_retrieve stripe _ _) as [ch|e]; [|done].
    destruct (upsert "Charge" _ _ _) as [[local|e] w']; [|done].
    intros H%upsert_result. by exists customer, (PRef (pk local)).
  - intros H%upsert_result. by exists customer, (dict_get o "charge").
Qed.

Lemma order_defaults_amount_returned o customer charge :
  defaults_of o customer charge !! "amount_returned" =
  Some (amount_returned_default ZERO_DECIMAL_CURRENCIES
          (dict_get o "amount_returned") (dict_get o "currency")).
Proof. reflexivity. Qed.

Lemma sync_order_amount_returned o w order w1 :
  sync_order (Payload o) w = (Ok order, w1) ->
  attr order "amount_returned" =
  amount_returned_default ZERO_DECIMAL_CURRENCIES
    (dict_get o "amount_returned") (dict_get o "currency").
Proof.
  intros (customer & charge & Hag & _)%sync_order_result.
  apply (agrees_with_attr _ _ _ _ Hag). apply order_defaults_amount_returned.
Qed.

(** C8, as amended: after a successful order sync the returned Order is
    stored; when the payload has no amount-returned value its
    [amount_returned] is [None], and when the payload has a non-zero
    integer there, it is that integer converted by the Amount Converter
    with the order's currency. *)
Theorem amount_returned_stored o w order w1 :
  sync_order (Payload o) w = (Ok order, w1) ->
  order ∈ objects "Order" (db w1) /\
  (dict_get o "amount_returned" = PNone -> attr order "amount_returned" = PNone) /\
  (forall z, z <> 0 -> dict_get o "amount_returned" = PInt z ->
     attr order "amount_returned" =
     convert_amount_for_db ZERO_DECIMAL_CURRENCIES (PInt z) (dict_get o "currency")).
Proof.
  intros Hrun. pose proof (sync_order_amount_returned _ _ _ _ Hrun) as Har.
  apply sync_order_result in Hrun as (customer & charge & _ & _ & Hin).
  split_and!; [done| |].
  - intros Habs. by rewrite Har, Habs.
  - intros z Hz Hpres. rewrite Har, Hpres. unfold amount_returned_default.
    simpl truthy. by rewrite (proj2 (Z.eqb_neq z 0) Hz).
Qed.

Lemma dict_get_delete_ne o key key' :
  key <> key' -> dict_get (delete key o) key' = dict_get o key'.
Proof. intros H. unfold dict_get. by rewrite lookup_delete_ne. Qed.

Lemma dict_get_delete_eq o key : dict_get (delete key o) key = PNone.
Proof. unfold dict_get. by rewrite lookup_delete_eq. Qed.

Lemma order_defaults_zero_returned o customer charge :
  dict_get o "amount_returned" = PInt 0 ->
  defaults_of (delete "amount_returned" o) customer charge =
  defaults_of o customer charge.
Proof.
  intros Hz. unfold order_defaults.
  rewrite dict_get_delete_eq, Hz. rewrite !dict_get_delete_ne by done.
  reflexivity.
Qed.

(** C9: a payload whose amount-returned is exactly zero is synchronised
    exactly like the same payload without that field; the stored
    [amount_returned] is [None], which is not what the Amount Converter
    gives for zero. *)
Theorem zero_amount_returned_as_absent o w :
  dict_get o "amount_returned" = PInt 0 ->
  sync_order (Payload o) w = sync_order (Payload (delete "amount_returned" o)) w /\
  (forall order w1,
     sync_order (Payload o) w = (Ok order, w1) ->
     attr order "amount_returned" = PNone /\
     attr order "amount_returned" <>
       convert_amount_for_db ZERO_DECIMAL_CURRENCIES (PInt 0) (dict_get o "currency")).
Proof.
  intros Hz. split.
  - rewrite !sync_order_unfold.
    rewrite !dict_get_delete_ne by done.
    destruct (get_one _ _ _) as [customer|e]; [|done].
    destruct (truthy (dict_get o "charge")).
    + cbv zeta. destruct (Charge_retrieve stripe _ _) as [ch|e]; [|done].
      destruct (upsert "Charge" _ _ _) as [[local|e] w']; [|done].
      by rewrite order_defaults_zero_returned.
    + by rewrite order_defaults_zero_returned.
  - intros order w1 Hrun. apply sync_order_amount_returned in Hrun as ->.
    rewrite Hz. split; [done|]. simpl. by destruct (is_zero_decimal _ _).
Qed.

(** Running the order sync again on the world it produced. *)
Lemma sync_order_idempotent o w order w1 :
  NoDup (pk <$> objects "Order" (db w)) ->
  NoDup (pk <$> objects "Charge" (db w)) ->
  sync_order (Payload o) w = (Ok order, w1) ->
  with_stripe_id (dict_get o "id") (objects "Order" (db w1)) = [order] /\
  exists w2,
    sync_order (Payload o) w1 = (Ok order, w2) /\
    db w2 = db w1 /\ writes w2 = writes w1.
Proof.
  intros Hord Hch. rewrite sync_order_unfold.
  destruct (get_one "Customer" _ (objects "Customer" (db w)))
    as [customer|e] eqn:Hcust; [|done].
  destruct (truthy (dict_get o "charge")) eqn:Htruthy.
  - cbv zeta.
    destruct (Charge_retrieve stripe _ (remote w)) as [ch|e] eqn:Hret; [|done].
    destruct (upsert "Charge" _ _ _) as [[local|e] wb] eqn:Hup1; [|done].
    intros Hup2.
    apply upsert_post in Hup1
      as (Hget1 & Hag1 & _ & _ & Hrem1 & _ & Hframe1 & _); [|done].
    apply upsert_post in Hup2
      as (Hget2 & Hag2 & _ & _ & Hrem2 & _ & Hframe2 & _);
      [|by rewrite Hframe1].
    split; [done|].
    exists (log_call (Call_Charge_retrieve (dict_get o "charge")) w1).
    split; [|done].
    rewrite sync_order_unfold.
    rewrite (Hframe2 "Customer"), (Hframe1 "Customer") by done.
    simpl db. rewrite Hcust, Htruthy. cbv zeta.
    rewrite Hrem2, Hrem1. simpl remote. rewrite Hret.
    rewrite (upsert_again "Charge" _ _ _ local); [| |done].
    + by apply upsert_again.
    + simpl db. by rewrite (Hframe2 "Charge").
  - intros Hup.
    apply upsert_post in Hup as (Hget & Hag & _ & _ & _ & _ & Hframe & _); [|done].
    split; [done|]. exists w1. split; [|done].
    rewrite sync_order_unfold, (Hframe "Customer"), Hcust, Htruthy by done.
    by apply upsert_again.
Qed.
End OrderSync.

(** ** The plan sync routine *)

Section PlanSync.
Context {Remote : Type}.
Variable stripe : Provider Remote.
Variable ZERO_DECIMAL_CURRENCIES : list string.
Implicit Types (w : World Remote) (plan : StripeObject).

Local Abbreviation sync_plan' := (@sync_plan Remote ZERO_DECIMAL_CURRENCIES).


(** When the loop body succeeds once, the payload has every key it reads,
    and the body is the upsert of a fixed defaults mapping. *)
Lemma sync_plan_ok plan w w1 :
  sync_plan' plan w = (Ok tt, w1) ->
  exists defaults,
    forall w', sync_plan' plan w' =
               match upsert "Plan" (dict_get plan "id") defaults w' with
               | (Ok _, w'') => (Ok tt, w'')
               | (Raise e, w'') => (Raise e, w'')
               end.
Proof.
  unfold sync_plan, getitem, dict_get.
  destruct (plan !! "amount") as [amount|]; [|done].
  destruct (plan !! "currency") as [currency|]; [|done].
  destruct (plan !! "interval") as [interval|]; [|done].
  destruct (plan !! "interval_count") as [interval_count|]; [|done].
  destruct (plan !! "name") as [name|]; [|done].
  destruct (plan !! "statement_descriptor") as [statement_descriptor|]; [|done].
  destruct (plan !! "trial_period_days") as [trial_period_days|]; [|done].
  destruct (plan !! "id") as [id|]; [|done].
  intros _.
  exists (list_to_map
            [ ("amount", convert_amount_for_db ZERO_DECIMAL_CURRENCIES amount currency);
              ("currency", py_or currency (PStr ""));
              ("interval", interval);
              ("interval_count", interval_count);
              ("name", name);
              ("statement_descriptor", py_or statement_descriptor (PStr ""));
              ("trial_period_days", trial_period_days) ]).
  intros w'. unfold upsert, bind, ret. simpl default.
  destruct (get_or_create "Plan" id _ w') as [[[obj created]|e] w'']; [|done].
  destruct (update_with_defaults "Plan" obj _ created w'') as [[obj'|e] w3]; done.
Qed.


Lemma sync_plan_idempotent plan w w1 :
  NoDup (pk <$> objects "Plan" (db w)) ->
  sync_plan' plan w = (Ok tt, w1) ->
  sync_plan' plan w1 = (Ok tt, w1) /\
  exists obj, with_stripe_id (dict_get plan "id") (objects "Plan" (db w1)) = [obj].
Proof.
  intros Hnd Hrun. destruct (sync_plan_ok _ _ _ Hrun) as [defaults Hbody].
  rewrite Hbody in Hrun.
  destruct (upsert "Plan" _ defaults w) as [[obj|e] wa] eqn:Hup; [|done].
  injection Hrun as <-.
  apply upsert_post in Hup as (Hget & Hag & _); [|done].
  split; [|by exists obj].
  by rewrite Hbody, (upsert_again _ _ _ _ obj).
Qed.

Lemma for_each_in_sync (plans : list StripeObject) w :
  all_in_sync ZERO_DECIMAL_CURRENCIES plans w -> for_each plans sync_plan' w = (Ok tt, w).
Proof.
  induction plans as [|plan plans IH]; intros Hall; [done|].
  destruct (Hall plan) as (defaults & Hbody & obj & Hget & Hag);
    [apply elem_of_cons; by left|].
  cbn [for_each]. unfold bind.
  rewrite Hbody, (upsert_again _ _ _ _ obj) by done.
  apply IH. intros p Hp. apply Hall. apply elem_of_cons. by right.
Qed.

Lemma for_each_post (plans : list StripeObject) w w1 :
  NoDup (pk <$> objects "Plan" (db w)) ->
  NoDup ((fun plan => dict_get plan "id") <$> plans) ->
  for_each plans sync_plan' w = (Ok tt, w1) ->
  all_in_sync ZERO_DECIMAL_CURRENCIES plans w1 /\
  NoDup (pk <$> objects "Plan" (db w1)) /\
  remote w1 = remote w /\
  (forall sid, sid ∉ (fun plan => dict_get plan "id") <$> plans ->
     with_stripe_id sid (objects "Plan" (db w1)) =
     with_stripe_id sid (objects "Plan" (db w))).
Proof.
  revert w. induction plans as [|plan plans IH]; intros w Hnd Hids Hrun.
  - injection Hrun as <-. split_and!; try done.
    intros plan Hp. by apply elem_of_nil in Hp.
  - rewrite fmap_cons in Hids. apply NoDup_cons in Hids as [Hfresh Hids].
    cbn [for_each] in Hrun. unfold bind in Hrun.
    destruct (sync_plan' plan w) as [[[]|e] wa] eqn:Hbody1; [|done].
    destruct (sync_plan_ok _ _ _ Hbody1) as [defaults Hbody].
    rewrite Hbody in Hbody1.
    destruct (upsert "Plan" _ defaults w) as [[obj|e] wa'] eqn:Hup; [|done].
    injection Hbody1 as ->.
    apply upsert_post in Hup
      as (Hget & Hag & _ & Hnd' & Hrem & _ & _ & Hother); [|done].
    destruct (IH wa Hnd' Hids Hrun) as (Hall & Hnd1 & Hrem1 & Hother1).
    split_and!.
    + intros p [->|Hp]%elem_of_cons; [|by apply Hall].
      exists defaults. split; [done|]. exists obj. split; [|done].
      by rewrite Hother1.
    + done.
    + congruence.
    + intros sid Hsid. rewrite fmap_cons in Hsid.
      apply not_elem_of_cons in Hsid as [Hne Hsid].
      rewrite Hother1 by done. by apply Hother.
Qed.

Lemma sync_plans_unfold w :
  sync_plans stripe ZERO_DECIMAL_CURRENCIES w =
  match Plan_all stripe (remote w) with
  | Ok plans => for_each plans sync_plan' (log_call Call_Plan_all w)
  | Raise e => (Raise e, log_call Call_Plan_all w)
  end.
Proof.
  unfold sync_plans, bind, stripe_Plan_all.
  by destruct (Plan_all stripe (remote w)).
Qed.

(** Running [sync_plans] again on the world it produced, for a listing
    whose plans have pairwise distinct identifiers. *)
Lemma sync_plans_idempotent (plans : list StripeObject) w w1 :
  NoDup (pk <$> objects "Plan" (db w)) ->
  Plan_all stripe (remote w) = Ok plans ->
  NoDup ((fun plan => dict_get plan "id") <$> plans) ->
  sync_plans stripe ZERO_DECIMAL_CURRENCIES w = (Ok tt, w1) ->
  (forall plan, plan ∈ plans ->
     exists obj, with_stripe_id (dict_get plan "id") (objects "Plan" (db w1)) = [obj]) /\
  exists w2,
    sync_plans stripe ZERO_DECIMAL_CURRENCIES w1 = (Ok tt, w2) /\
    db w2 = db w1 /\ writes w2 = writes w1.
Proof.
  intros Hnd Hlist Hids. rewrite sync_plans_unfold, Hlist. intros Hrun.
  apply for_each_post in Hrun as (Hall & _ & Hrem & _); [|done..].
  split.
  - intros plan Hp. destruct (Hall plan Hp) as (defaults & _ & obj & Hget & _).
    by exists obj.
  - exists (log_call Call_Plan_all w1). split; [|done].
    rewrite sync_plans_unfold, Hrem. simpl remote. rewrite Hlist.
    by apply for_each_in_sync.
Qed.
End PlanSync.

(** ** create, retrieve, create_return *)

Section OrderActions.
Context {Remote : Type}.
Variable stripe : Provider Remote.
Variable ZERO_DECIMAL_CURRENCIES : list string.
Variable charge_defaults : StripeObject -> StripeObject.
Variable convert_to_order_item : Row -> pyval.
Variable stripe_order_property : Row -> @M Remote StripeObject.
Implicit Types (w : World Remote) (o : StripeObject).

Local Abbreviation sync_order :=
  (sync_order_from_stripe_data stripe ZERO_DECIMAL_CURRENCIES charge_defaults).
Local Abbreviation create' :=
  (create stripe ZERO_DECIMAL_CURRENCIES charge_defaults convert_to_order_item
          stripe_order_property).
Local Abbreviation create_return' :=
  (create_return stripe ZERO_DECIMAL_CURRENCIES charge_defaults stripe_order_property).

(** A payload without a charge, for a known customer and with no local
    Order yet, is synchronised by creating the Order from its defaults. *)
Lemma sync_order_creates o w customer :
  get_one "Customer" (dict_get o "customer") (objects "Customer" (db w)) = Ok customer ->
  truthy (dict_get o "charge") = false ->
  with_stripe_id (dict_get o "id") (objects "Order" (db w)) = [] ->
  exists order w1,
    sync_order (Payload o) w = (Ok order, w1) /\
    stripe_id order = dict_get o "id" /\
    fields order =
      order_defaults ZERO_DECIMAL_CURRENCIES o customer (dict_get o "charge") /\
    order ∈ objects "Order" (db w1).
Proof.
  intros Hc Hch Hnew. rewrite sync_order_unfold, Hc, Hch.
  rewrite (upsert_created _ _ _ _ Hnew). eexists _, _. split; [done|].
  split_and!; [done..|].
  unfold write_table; simpl. rewrite objects_insert_eq.
  apply elem_of_app. right. by apply list_elem_of_singleton.
Qed.

(** C2: with immediate payment requested and a source given, when the
    provider creates the order and then fails the payment, an
    invalid-request failure is swallowed and the outcome of [create] is
    that of synchronising the created, unpaid payload (a stored local
    Order built from it whenever the customer is known locally, the
    payload has no charge and no local Order has its identifier yet); a
    failure of any other class is raised to the caller. *)
Theorem create_pay_failure customer items currency source shipping coupon
    metadata w created r1 e r2 :
  truthy source = true ->
  let params :=
    create_params convert_to_order_item customer items currency shipping
                  coupon metadata in
  Order_create stripe params (remote w) = (Ok created, r1) ->
  Order_pay stripe created {[ "source" := source ]} r1 = (Raise e, r2) ->
  let w2 :=
    set_remote r2
      (log_call (Call_Order_pay created {[ "source" := source ]})
         (set_remote r1 (log_call (Call_Order_create params) w))) in
  let outcome :=
    create' customer items currency source shipping coupon metadata true w in
  (forall msg, e = InvalidRequestError msg ->
     outcome = sync_order (Payload created) w2) /\
  (forall msg c, e = InvalidRequestError msg ->
     get_one "Customer" (dict_get created "customer") (objects "Customer" (db w)) = Ok c ->
     truthy (dict_get created "charge") = false ->
     with_stripe_id (dict_get created "id") (objects "Order" (db w)) = [] ->
     exists order w3,
       outcome = (Ok order, w3) /\
       stripe_id order = dict_get created "id" /\
       fields order =
         order_defaults ZERO_DECIMAL_CURRENCIES created c (dict_get created "charge") /\
       order ∈ objects "Order" (db w3)) /\
  ((forall msg, e <> InvalidRequestError msg) -> outcome = (Raise e, w2)).
Proof.
  intros Hsrc params Hcreate Hpay w2 outcome. subst params.
  unfold create_params in *.
  assert (outcome =
          match e with
          | InvalidRequestError _ => sync_order (Payload created) w2
          | _ => (Raise e, w2)
          end) as Hout.
  { unfold outcome, create. rewrite Hsrc. cbn [andb negb].
    unfold bind at 1. unfold stripe_Order_create. rewrite Hcreate.
    unfold bind at 1. unfold try_except, pay.
    unfold bind at 1. unfold bind at 1. unfold ret at 1.
    rewrite Hsrc. unfold bind at 1. unfold stripe_Order_pay.
    simpl remote. rewrite Hpay. by destruct e. }
  split_and!.
  - intros msg ->. done.
  - intros msg c -> Hc Hch Hnew. rewrite Hout.
    by apply sync_order_creates.
  - intros Hne. rewrite Hout. destruct e; try done. by destruct (Hne msg).
Qed.

(** C4: [retrieve] with a falsy identifier returns nothing and leaves the
    world (hence the request log) untouched; otherwise it asks the provider
    once, returns the payload on success, returns nothing on an
    invalid-request error whose text contains "No such order", and raises
    every other error as it came. *)
Theorem retrieve_outcomes (stripe_order_id : pyval) w :
  (truthy stripe_order_id = false ->
     retrieve stripe stripe_order_id w = (Ok None, w)) /\
  (truthy stripe_order_id = true ->
     let w1 := log_call (Call_Order_retrieve stripe_order_id) w in
     (forall o, Order_retrieve stripe stripe_order_id (remote w) = Ok o ->
        retrieve stripe stripe_order_id w = (Ok (Some o), w1)) /\
     (forall msg,
        Order_retrieve stripe stripe_order_id (remote w) =
          Raise (InvalidRequestError msg) ->
        contains msg "No such order" ->
        retrieve stripe stripe_order_id w = (Ok None, w1)) /\
     (forall e,
        Order_retrieve stripe stripe_order_id (remote w) = Raise e ->
        (forall msg, e = InvalidRequestError msg -> ~ contains msg "No such order") ->
        retrieve stripe stripe_order_id w = (Raise e, w1))).
Proof.
  split.
  - intros Hid. unfold retrieve. by rewrite Hid.
  - intros Hid w1. unfold retrieve. rewrite Hid. cbn [negb].
    unfold try_except, bind, stripe_Order_retrieve. split_and!.
    + intros o ->. done.
    + intros msg -> Hc. by rewrite (proj2 (str_find_contains _ _) Hc).
    + intros e -> Hne. destruct e; try done.
      destruct (Z.geb (str_find msg "No such order") 0) eqn:Hfind; [|done].
      apply str_find_contains in Hfind. by destruct (Hne msg).
Qed.

(** C10: [create_return] ignores what the provider answers to the return
    request: once the order's payload has been obtained and the return
    request has succeeded, the outcome is that of synchronising that same
    payload, so the local Order's fields (amount-returned, status) are
    computed from the payload as it was before the request. *)
Theorem create_return_syncs_original order items w o w1 answer r2 :
  stripe_order_property order w = (Ok o, w1) ->
  let return_params : StripeObject :=
    if truthy items then {[ "items" := items ]} else ∅ in
  Order_return_order stripe o return_params (remote w1) = (Ok answer, r2) ->
  let w2 := set_remote r2 (log_call (Call_Order_return_order o return_params) w1) in
  create_return' order items w = sync_order (Payload o) w2 /\
  (forall local w3,
     create_return' order items w = (Ok local, w3) ->
     attr local "amount_returned" =
       amount_returned_default ZERO_DECIMAL_CURRENCIES
         (dict_get o "amount_returned") (dict_get o "currency") /\
     attr local "status" = dict_get o "status").
Proof.
  intros Hprop return_params Hret w2. subst return_params.
  assert (create_return' order items w = sync_order (Payload o) w2) as Heq.
  { unfold create_return. unfold bind at 1. rewrite Hprop.
    unfold bind at 1. unfold stripe_Order_return_order.
    by rewrite Hret. }
  split; [done|]. intros local w3. rewrite Heq. intros Hrun. split.
  - by apply sync_order_amount_returned in Hrun.
  - apply sync_order_result in Hrun as (customer & charge & Hag & _).
    by apply (agrees_with_attr _ _ _ _ Hag).
Qed.
End OrderActions.

(** ** Idempotence of the sync routines *)

(** C6: when a sync has succeeded, running it again with the same payload
    succeeds with the same record, leaves the store exactly as it was and
    issues no write; the store then holds exactly one record with the
    payload's identifier.  This holds for the order sync, for the body of
    the plan sync on one plan payload, and for [sync_plans] on a listing
    whose plans have pairwise distinct identifiers.  Primary keys are
    assumed unique in the tables written. *)
Theorem sync_twice_is_noop {Remote : Type} (stripe : Provider Remote)
    (ZERO_DECIMAL_CURRENCIES : list string)
    (charge_defaults : StripeObject -> StripeObject) :
  (forall (o : StripeObject) (w : World Remote) order w1,
     NoDup (pk <$> objects "Order" (db w)) ->
     NoDup (pk <$> objects "Charge" (db w)) ->
     sync_order_from_stripe_data stripe ZERO_DECIMAL_CURRENCIES charge_defaults
       (Payload o) w = (Ok order, w1) ->
     with_stripe_id (dict_get o "id") (objects "Order" (db w1)) = [order] /\
     exists w2,
       sync_order_from_stripe_data stripe ZERO_DECIMAL_CURRENCIES charge_defaults
         (Payload o) w1 = (Ok order, w2) /\
       db w2 = db w1 /\ writes w2 = writes w1) /\
  (forall (plan : StripeObject) (w : World Remote) w1,
     NoDup (pk <$> objects "Plan" (db w)) ->
     sync_plan ZERO_DECIMAL_CURRENCIES plan w = (Ok tt, w1) ->
     sync_plan ZERO_DECIMAL_CURRENCIES plan w1 = (Ok tt, w1) /\
     exists obj,
       with_stripe_id (dict_get plan "id") (objects "Plan" (db w1)) = [obj]) /\
  (forall (plans : list StripeObject) (w : World Remote) w1,
     NoDup (pk <$> objects "Plan" (db w)) ->
     Plan_all stripe (remote w) = Ok plans ->
     NoDup ((fun plan => dict_get plan "id") <$> plans) ->
     sync_plans stripe ZERO_DECIMAL_CURRENCIES w = (Ok tt, w1) ->
     (forall plan, plan ∈ plans ->
        exists obj,
          with_stripe_id (dict_get plan "id") (objects "Plan" (db w1)) = [obj]) /\
     exists w2,
       sync_plans stripe ZERO_DECIMAL_CURRENCIES w1 = (Ok tt, w2) /\
       db w2 = db w1 /\ writes w2 = writes w1).
Proof.
  split_and!.
  - intros o w order w1. apply sync_order_idempotent.
  - intros plan w w1. apply sync_plan_idempotent.
  - intros plans w w1. apply sync_plans_idempotent.
Qed.

(** ** The properties at work on the fixture *)

Ltac by_computation := refine (bool_decide_unpack _ _); vm_compute; exact I.

Lemma sync_twice_is_noop_witness :
  (exists order w1 w2,
     sync_order_from_stripe_data Fixture.stripe Fixture.ZERO_DECIMAL_CURRENCIES
       Fixture.charge_defaults (Payload Fixture.order_with_charge) Fixture.world
       = (Ok order, w1) /\
     sync_order_from_stripe_data Fixture.stripe Fixture.ZERO_DECIMAL_CURRENCIES
       Fixture.charge_defaults (Payload Fixture.order_with_charge) w1
       = (Ok order, w2) /\
     db w2 = db w1 /\ writes w2 = writes w1) /\
  (exists w1 w2,
     sync_plans Fixture.stripe Fixture.ZERO_DECIMAL_CURRENCIES Fixture.world = (Ok tt, w1) /\
     sync_plans Fixture.stripe Fixture.ZERO_DECIMAL_CURRENCIES w1 = (Ok tt, w2) /\
     db w2 = db w1 /\ writes w2 = writes w1).
Proof.
  destruct (sync_twice_is_noop Fixture.stripe Fixture.ZERO_DECIMAL_CURRENCIES
              Fixture.charge_defaults) as (Horder & _ & Hplans).
  split.
  - edestruct (Horder Fixture.order_with_charge Fixture.world)
      as (_ & w2 & Hagain & Hdb & Hwrites).
    + by_computation.
    + by_computation.
    + vm_compute. reflexivity.
    + eexists _, _, w2. split; [vm_compute; reflexivity|]. split_and!; eassumption.
  - edestruct (Hplans [Fixture.plan_pro; Fixture.plan_light] Fixture.world)
      as (_ & w2 & Hagain & Hdb & Hwrites).
    + by_computation.
    + reflexivity.
    + by_computation.
    + vm_compute. reflexivity.
    + eexists _, w2. split; [vm_compute; reflexivity|]. split_and!; eassumption.
Defined.

Lemma create_pay_failure_witness :
  (exists order w3,
     create Fixture.stripe Fixture.ZERO_DECIMAL_CURRENCIES Fixture.charge_defaults
       Fixture.convert_to_order_item Fixture.stripe_order_property
       Fixture.customer1 [SkuInstance (mkRow 1 (PStr "sku_1") ∅)]
       (PStr "usd") (PStr "tok_visa") PNone PNone PNone true Fixture.world
     = (Ok order, w3) /\
     stripe_id order = PStr "or_1" /\
     order ∈ objects "Order" (db w3)) /\
  fst (create Fixture.stripe_declining Fixture.ZERO_DECIMAL_CURRENCIES
         Fixture.charge_defaults Fixture.convert_to_order_item
         Fixture.stripe_order_property
         Fixture.customer1 [SkuInstance (mkRow 1 (PStr "sku_1") ∅)]
         (PStr "usd") (PStr "tok_visa") PNone PNone PNone true Fixture.world)
  = Raise (StripeError "CardError" "Your card was declined.").
Proof.
  split.
  - destruct (create_pay_failure Fixture.stripe Fixture.ZERO_DECIMAL_CURRENCIES
                Fixture.charge_defaults Fixture.convert_to_order_item
                Fixture.stripe_order_property
                Fixture.customer1 [SkuInstance (mkRow 1 (PStr "sku_1") ∅)]
                (PStr "usd") (PStr "tok_visa") PNone PNone PNone Fixture.world
                Fixture.order_unpaid tt
                (InvalidRequestError "Cannot charge a customer that has no active card")
                tt eq_refl eq_refl eq_refl) as (_ & Hreturns & _).
    destruct (Hreturns _ Fixture.customer1 eq_refl) as (order & w3 & Hrun & Hid & _ & Hin).
    + vm_compute. reflexivity.
    + reflexivity.
    + vm_compute. reflexivity.
    + exists order, w3. split_and!; [exact Hrun | exact Hid | exact Hin].
  - rewrite (proj2 (proj2
               (create_pay_failure Fixture.stripe_declining
                  Fixture.ZERO_DECIMAL_CURRENCIES
                  Fixture.charge_defaults Fixture.convert_to_order_item
                  Fixture.stripe_order_property
                  Fixture.customer1 [SkuInstance (mkRow 1 (PStr "sku_1") ∅)]
                  (PStr "usd") (PStr "tok_visa") PNone PNone PNone Fixture.world
                  Fixture.order_unpaid tt
                  (StripeError "CardError" "Your card was declined.")
                  tt eq_refl eq_refl eq_refl))).
    + reflexivity.
    + intros msg. discriminate.
Defined.

Lemma create_without_source_raises_witness :
  create Fixture.stripe Fixture.ZERO_DECIMAL_CURRENCIES Fixture.charge_defaults
    Fixture.convert_to_order_item Fixture.stripe_order_property
    Fixture.customer1 [OtherItem (PDict [("type", PStr "sku"); ("parent", PStr "sku_1")])]
    (PStr "usd") PNone PNone PNone PNone true Fixture.world
  = (Raise (ValueError "You need a 'source' in order to use 'pay_immediately'"),
     Fixture.world).
Proof.
  apply (create_without_source_raises Fixture.stripe Fixture.ZERO_DECIMAL_CURRENCIES
           Fixture.charge_defaults Fixture.convert_to_order_item
           Fixture.stripe_order_property).
  reflexivity.
Defined.

Lemma retrieve_outcomes_witness :
  retrieve Fixture.stripe (PStr "") Fixture.world = (Ok None, Fixture.world) /\
  retrieve Fixture.stripe (PStr "or_1") Fixture.world =
    (Ok (Some Fixture.order_unpaid),
     log_call (Call_Order_retrieve (PStr "or_1")) Fixture.world) /\
  retrieve Fixture.stripe (PStr "or_gone") Fixture.world =
    (Ok None, log_call (Call_Order_retrieve (PStr "or_gone")) Fixture.world) /\
  retrieve Fixture.stripe (PStr "or_bad") Fixture.world =
    (Raise (InvalidRequestError "Invalid order id"),
     log_call (Call_Order_retrieve (PStr "or_bad")) Fixture.world) /\
  retrieve Fixture.stripe (PStr "or_down") Fixture.world =
    (Raise (StripeError "APIConnectionError" "Network error"),
     log_call (Call_Order_retrieve (PStr "or_down")) Fixture.world).
Proof.
  split_and!.
  - apply (proj1 (retrieve_outcomes Fixture.stripe (PStr "") Fixture.world)).
    reflexivity.
  - destruct (proj2 (retrieve_outcomes Fixture.stripe (PStr "or_1") Fixture.world)
                eq_refl) as (Hfound & _ & _).
    apply Hfound. reflexivity.
  - destruct (proj2 (retrieve_outcomes Fixture.stripe (PStr "or_gone") Fixture.world)
                eq_refl) as (_ & Hgone & _).
    apply (Hgone "Request req_1: No such order: or_gone"); [reflexivity|].
    by exists "Request req_1: ", ": or_gone".
  - destruct (proj2 (retrieve_outcomes Fixture.stripe (PStr "or_bad") Fixture.world)
                eq_refl) as (_ & _ & Hother).
    apply Hother; [reflexivity|]. intros msg [= <-] Hc%str_find_contains.
    vm_compute in Hc. discriminate.
  - destruct (proj2 (retrieve_outcomes Fixture.stripe (PStr "or_down") Fixture.world)
                eq_refl) as (_ & _ & Hother).
    apply Hother; [reflexivity|]. intros msg. discriminate.
Defined.

Lemma sync_order_unknown_customer_witness :
  sync_order_from_stripe_data Fixture.stripe Fixture.ZERO_DECIMAL_CURRENCIES
    Fixture.charge_defaults (Payload Fixture.order_unknown_customer) Fixture.world
  = (Raise (DoesNotExist "Customer"), Fixture.world).
Proof.
  apply sync_order_unknown_customer.
  intros c Hc.
  change (objects "Customer" (db Fixture.world))
    with [Fixture.customer1; Fixture.customer2] in Hc.
  apply elem_of_cons in Hc as [->|Hc]; [vm_compute; discriminate|].
  apply list_elem_of_singleton in Hc as ->. vm_compute. discriminate.
Defined.

Lemma amount_returned_stored_witness :
  exists order w1,
    sync_order_from_stripe_data Fixture.stripe Fixture.ZERO_DECIMAL_CURRENCIES
      Fixture.charge_defaults (Payload Fixture.order_part_returned) Fixture.world
    = (Ok order, w1) /\
    order ∈ objects "Order" (db w1) /\
    attr order "amount_returned" = PDecimal 500 2.
Proof.
  eexists _, _. split; [vm_compute; reflexivity|].
  edestruct (amount_returned_stored Fixture.stripe Fixture.ZERO_DECIMAL_CURRENCIES
               Fixture.charge_defaults Fixture.order_part_returned Fixture.world)
    as (Hstored & _ & Hpresent).
  - vm_compute. reflexivity.
  - split; [exact Hstored|]. apply (Hpresent 500); [discriminate | reflexivity].
Defined.

(** C8 as stated does not hold: a payload whose amount-returned is present
    with value zero is stored with an absent [amount_returned], not with the
    converted amount. *)
Lemma amount_returned_zero_not_converted :
  ~ (forall (o : StripeObject) (w : World unit) order w1 z,
       sync_order_from_stripe_data Fixture.stripe Fixture.ZERO_DECIMAL_CURRENCIES
         Fixture.charge_defaults (Payload o) w = (Ok order, w1) ->
       dict_get o "amount_returned" = PInt z ->
       attr order "amount_returned" =
       convert_amount_for_db Fixture.ZERO_DECIMAL_CURRENCIES (PInt z)
         (dict_get o "currency")).
Proof.
  intros Hclaim.
  destruct (sync_order_from_stripe_data Fixture.stripe Fixture.ZERO_DECIMAL_CURRENCIES
              Fixture.charge_defaults (Payload Fixture.order_zero_returned)
              Fixture.world) as [[order|e] w1] eqn:Hrun.
  - specialize (Hclaim _ _ _ _ 0 Hrun eq_refl).
    vm_compute in Hrun. injection Hrun as <- _.
    vm_compute in Hclaim. discriminate.
  - vm_compute in Hrun. discriminate.
Qed.

Lemma zero_amount_returned_as_absent_witness :
  sync_order_from_stripe_data Fixture.stripe Fixture.ZERO_DECIMAL_CURRENCIES
    Fixture.charge_defaults (Payload Fixture.order_zero_returned) Fixture.world
  = sync_order_from_stripe_data Fixture.stripe Fixture.ZERO_DECIMAL_CURRENCIES
      Fixture.charge_defaults
      (Payload (delete "amount_returned" Fixture.order_zero_returned)) Fixture.world /\
  exists order w1,
    sync_order_from_stripe_data Fixture.stripe Fixture.ZERO_DECIMAL_CURRENCIES
      Fixture.charge_defaults (Payload Fixture.order_zero_returned) Fixture.world
    = (Ok order, w1) /\
    attr order "amount_returned" = PNone.
Proof.
  destruct (zero_amount_returned_as_absent Fixture.stripe
              Fixture.ZERO_DECIMAL_CURRENCIES Fixture.charge_defaults
              Fixture.order_zero_returned Fixture.world eq_refl) as [Hsame Hnone].
  split; [exact Hsame|].
  eexists _, _. split; [vm_compute; reflexivity|].
  eapply Hnone. vm_compute. reflexivity.
Defined.

Lemma create_return_syncs_original_witness :
  exists local w3,
    create_return Fixture.stripe Fixture.ZERO_DECIMAL_CURRENCIES
      Fixture.charge_defaults Fixture.stripe_order_property
      (mkRow 1 (PStr "or_1") ∅) PNone Fixture.world = (Ok local, w3) /\
    attr local "amount_returned" = PNone /\
    attr local "status" = PStr "created".
Proof.
  destruct (create_return_syncs_original Fixture.stripe
              Fixture.ZERO_DECIMAL_CURRENCIES Fixture.charge_defaults
              Fixture.stripe_order_property
              (mkRow 1 (PStr "or_1") ∅) PNone Fixture.world
              Fixture.order_unpaid
              (log_call (Call_Order_retrieve (PStr "or_1")) Fixture.world)
              Fixture.order_return tt eq_refl eq_refl) as [_ Hfields].
  eexists _, _. split; [vm_compute; reflexivity|].
  eapply Hfields. vm_compute. reflexivity.
Defined.

(* ===================================================================== *)
(** * Further properties of the order and plan actions *)
(* ===================================================================== *)

Section Footprint.
Context {Remote : Type}.
Variable stripe : Provider Remote.
Variable ZERO_DECIMAL_CURRENCIES : list string.
Variable charge_defaults : StripeObject -> StripeObject.
Implicit Types (w : World Remote) (o : StripeObject).

Local Abbreviation sync_order :=
  (sync_order_from_stripe_data stripe ZERO_DECIMAL_CURRENCIES charge_defaults).

(** An upsert can only fail on its lookup, and then nothing has changed. *)
Lemma upsert_raise model sid (defaults : StripeObject) w e w1 :
  upsert model sid defaults w = (Raise e, w1) ->
  e = MultipleObjectsReturned model /\ w1 = w.
Proof.
  destruct (with_stripe_id sid (objects model (db w))) as [|r [|r2 l]] eqn:Hget.
  - by rewrite (upsert_created _ _ _ _ Hget).
  - rewrite (upsert_found _ _ _ _ _ Hget). by case_decide.
  - rewrite (upsert_multiple _ _ _ _ _ _ _ Hget). by intros [= <- <-].
Qed.

(** Whatever its outcome, an upsert leaves the provider state, the request
    log and the tables of the other models alone. *)
Lemma upsert_frame model sid (defaults : StripeObject) w :
  remote (upsert model sid defaults w).2 = remote w /\
  calls (upsert model sid defaults w).2 = calls w /\
  forall m, m <> model ->
    objects m (db (upsert model sid defaults w).2) = objects m (db w).
Proof.
  destruct (with_stripe_id sid (objects model (db w))) as [|r [|r2 l]] eqn:Hget.
  - rewrite (upsert_created _ _ _ _ Hget). simpl. split_and!; [done..|].
    intros m Hm. by apply objects_insert_ne.
  - rewrite (upsert_found _ _ _ _ _ Hget). case_decide; simpl; split_and!; try done.
    intros m Hm. by apply objects_insert_ne.
  - by rewrite (upsert_multiple _ _ _ _ _ _ _ Hget).
Qed.

(** X1: whatever its outcome, the order sync leaves the provider state and
    every table other than Order and Charge as they were; it sends at most
    one request, the retrieval of the charge the payload references, and
    for a payload without a charge it sends none and leaves the Charge
    table alone too. *)
Theorem sync_order_footprint o w :
  let w1 := (sync_order (Payload o) w).2 in
  remote w1 = remote w /\
  (forall m, m <> "Order" -> m <> "Charge" -> objects m (db w1) = objects m (db w)) /\
  (calls w1 = calls w \/
   (truthy (dict_get o "charge") = true /\
    calls w1 = (calls w ++ [Call_Charge_retrieve (dict_get o "charge")])%list)) /\
  (truthy (dict_get o "charge") = false ->
   calls w1 = calls w /\ objects "Charge" (db w1) = objects "Charge" (db w)).
Proof.
  cbv zeta. rewrite sync_order_unfold.
  destruct (get_one _ _ _) as [customer|e]; [|split_and!; by auto].
  destruct (truthy (dict_get o "charge")) eqn:Htruthy.
  - cbv zeta. destruct (Charge_retrieve stripe _ _) as [ch|e].
    + pose proof (upsert_frame "Charge" (dict_get ch "id") (charge_defaults ch)
                    (log_call (Call_Charge_retrieve (dict_get o "charge")) w))
        as (Hrem1 & Hcalls1 & Hframe1).
      destruct (upsert "Charge" _ _ _) as [[local|e] wb]; simpl in *.
      * pose proof (upsert_frame "Order" (dict_get o "id")
                      (order_defaults ZERO_DECIMAL_CURRENCIES o customer (PRef (pk local)))
                      wb) as (Hrem2 & Hcalls2 & Hframe2).
        split_and!.
        -- congruence.
        -- intros m Hm1 Hm2. rewrite Hframe2, Hframe1 by done. done.
        -- right. split; [done|]. congruence.
        -- done.
      * split_and!; try done.
        -- intros m Hm1 Hm2. by apply Hframe1.
        -- right. done.
    + simpl. split_and!; try done. right. done.
  - pose proof (upsert_frame "Order" (dict_get o "id")
                  (order_defaults ZERO_DECIMAL_CURRENCIES o customer (dict_get o "charge"))
                  w) as (Hrem & Hcalls & Hframe).
    split_and!.
    + done.
    + intros m Hm1 Hm2. by apply Hframe.
    + by left.
    + intros _. split; [done|]. by apply Hframe.
Qed.

(** How a successful order sync came about. *)
Lemma sync_order_ok_inv o w order w1 :
  sync_order (Payload o) w = (Ok order, w1) ->
  exists customer charge wb,
    get_one "Customer" (dict_get o "customer") (objects "Customer" (db w)) = Ok customer /\
    upsert "Order" (dict_get o "id")
      (order_defaults ZERO_DECIMAL_CURRENCIES o customer charge) wb = (Ok order, w1) /\
    ((truthy (dict_get o "charge") = false /\ charge = dict_get o "charge" /\ wb = w) \/
     (truthy (dict_get o "charge") = true /\
      exists ch local,
        Charge_retrieve stripe (dict_get o "charge") (remote w) = Ok ch /\
        upsert "Charge" (dict_get ch "id") (charge_defaults ch)
          (log_call (Call_Charge_retrieve (dict_get o "charge")) w) = (Ok local, wb) /\
        charge = PRef (pk local))).
Proof.
  rewrite sync_order_unfold.
  destruct (get_one _ _ _) as [customer|e]; [|done].
  destruct (truthy (dict_get o "charge")) eqn:Htruthy.
  - cbv zeta. destruct (Charge_retrieve stripe _ _) as [ch|e] eqn:Hret; [|done].
    destruct (upsert "Charge" _ _ _) as [[local|e] wb] eqn:Hup; [|done].
    intros Hord. exists customer, (PRef (pk local)), wb.
    split_and!; [done..|]. right. split; [done|]. by exists ch, local.
  - intros Hord. exists customer, (dict_get o "charge"), w.
    split_and!; [done..|]. by left.
Qed.

(** X2: after a successful order sync the local Order carries the payload's
    identifier, references the one local Customer with the payload's
    customer identifier, holds the converted amount, and holds for each
    copied field the payload's value ([None] for a key the payload lacks),
    whatever the record held before; a falsy charge value is stored as it
    is. *)
Theorem sync_order_fields o w order w1 :
  sync_order (Payload o) w = (Ok order, w1) ->
  stripe_id order = dict_get o "id" /\
  (exists customer,
     with_stripe_id (dict_get o "customer") (objects "Customer" (db w)) = [customer] /\
     attr order "customer" = PRef (pk customer)) /\
  attr order "amount" =
    convert_amount_for_db ZERO_DECIMAL_CURRENCIES (dict_get o "amount")
      (dict_get o "currency") /\
  (forall key, key ∈ copied_order_fields -> attr order key = dict_get o key) /\
  (truthy (dict_get o "charge") = false -> attr order "charge" = dict_get o "charge").
Proof.
  intros (customer & charge & wb & Hcust & Hup & Hcharge)%sync_order_ok_inv.
  apply upsert_result in Hup as (Hag & Hid & _).
  split_and!.
  - done.
  - exists customer. split.
    + unfold get_one in Hcust.
      destruct (with_stripe_id _ _) as [|r [|r2 l]]; by simplify_eq.
    + by apply (agrees_with_attr _ _ _ _ Hag).
  - by apply (agrees_with_attr _ _ _ _ Hag).
  - intros key Hkey. apply (agrees_with_attr _ _ _ _ Hag).
    unfold copied_order_fields in Hkey.
    repeat (apply elem_of_cons in Hkey as [->|Hkey]; [reflexivity|]).
    by apply elem_of_nil in Hkey.
  - intros Hfalsy. destruct Hcharge as [(_ & -> & _)|[Htrue _]]; [|congruence].
    by apply (agrees_with_attr _ _ _ _ Hag).
Qed.

(** X3: for a payload without a charge, the order sync succeeds exactly
    when one local Customer has the payload's customer identifier and at
    most one local Order has the payload's identifier; when it fails the
    world is exactly as before. *)
Theorem sync_order_success_criterion o w :
  truthy (dict_get o "charge") = false ->
  ((exists order w1, sync_order (Payload o) w = (Ok order, w1)) <->
   (length (with_stripe_id (dict_get o "customer") (objects "Customer" (db w))) = 1%nat /\
    (length (with_stripe_id (dict_get o "id") (objects "Order" (db w))) <= 1)%nat)) /\
  (forall e w1, sync_order (Payload o) w = (Raise e, w1) -> w1 = w).
Proof.
  intros Hfalsy. rewrite sync_order_unfold, Hfalsy. unfold get_one.
  destruct (with_stripe_id (dict_get o "customer") _) as [|customer [|c2 l]].
  - split; [|by intros e w1 [= _ <-]].
    split; [by intros (order & w1 & ?) | simpl; lia].
  - destruct (with_stripe_id (dict_get o "id") (objects "Order" (db w)))
      as [|r [|r2 l]] eqn:Hget.
    + rewrite (upsert_created _ _ _ _ Hget). split; [|done].
      split; [simpl; lia | intros _; by eexists _, _].
    + rewrite (upsert_found _ _ _ _ _ Hget). split.
      * split; [simpl; lia|]. intros _. case_decide; by eexists _, _.
      * intros e w1. by case_decide.
    + rewrite (upsert_multiple _ _ _ _ _ _ _ Hget). split.
      * split; [by intros (order & w1 & ?) | simpl; lia].
      * by intros e w1 [= _ <-].
  - split; [|by intros e w1 [= _ <-]].
    split; [by intros (order & w1 & ?) | simpl; lia].
Qed.

(** X4: when the order sync raises, no Order row has been written or
    changed; the only write that can have happened is that of the charge
    the payload references. *)
Theorem sync_order_failure_writes_no_order o w e w1 :
  sync_order (Payload o) w = (Raise e, w1) ->
  objects "Order" (db w1) = objects "Order" (db w) /\
  (forall m, m <> "Charge" -> objects m (db w1) = objects m (db w)).
Proof.
  rewrite sync_order_unfold.
  destruct (get_one _ _ _) as [customer|e0]; [|by intros [= _ <-]].
  destruct (truthy (dict_get o "charge")).
  - cbv zeta. destruct (Charge_retrieve stripe _ _) as [ch|e0]; [|by intros [= _ <-]].
    pose proof (upsert_frame "Charge" (dict_get ch "id") (charge_defaults ch)
                  (log_call (Call_Charge_retrieve (dict_get o "charge")) w))
      as (_ & _ & Hframe).
    destruct (upsert "Charge" _ _ _) as [[local|e0] wb]; simpl in Hframe.
    + intros [_ ->]%upsert_raise. split; [by apply Hframe|done].
    + intros [= _ <-]. split; [by apply Hframe|done].
  - by intros [_ ->]%upsert_raise.
Qed.

Lemma stripe_id_replace_row obj (rows : list Row) :
  (forall x, x ∈ rows -> pk x = pk obj -> stripe_id x = stripe_id obj) ->
  stripe_id <$> (replace_row obj <$> rows) = stripe_id <$> rows.
Proof.
  intros Hsame. rewrite <- list_fmap_compose. apply list_fmap_ext.
  intros i x Hx. simpl. unfold replace_row. case_decide as Hpk; [|done].
  symmetry. apply Hsame; [|done]. by eapply list_elem_of_lookup_2.
Qed.

(** Whatever its outcome, an upsert keeps primary keys and external
    identifiers unique in its table. *)
Lemma upsert_keeps_unique_keys model sid (defaults : StripeObject) w :
  unique_keys model w -> unique_keys model (upsert model sid defaults w).2.
Proof.
  intros [Hpk Hsid]. unfold unique_keys.
  destruct (with_stripe_id sid (objects model (db w))) as [|r [|r2 l]] eqn:Hget.
  - rewrite (upsert_created _ _ _ _ Hget). simpl. rewrite objects_insert_eq.
    split; [by apply NoDup_pk_created|].
    rewrite fmap_app. apply NoDup_app. split_and!; [done| |apply NoDup_singleton].
    intros s (x & -> & Hx)%list_elem_of_fmap Hs. simpl in Hs.
    apply list_elem_of_singleton in Hs.
    assert (x ∈ with_stripe_id sid (objects model (db w))) as Hin
      by by apply with_stripe_id_elem.
    rewrite Hget in Hin. by apply elem_of_nil in Hin.
  - rewrite (upsert_found _ _ _ _ _ Hget). case_decide; [done|]. simpl.
    rewrite objects_insert_eq, pk_replace_row. split; [done|].
    assert (stripe_id r = sid /\ r ∈ objects model (db w)) as [Hr Hin].
    { apply with_stripe_id_elem. rewrite Hget. by apply list_elem_of_singleton. }
    rewrite stripe_id_replace_row; [done|].
    intros x Hx Hxpk. by rewrite (pk_unique _ x r Hpk Hx Hin Hxpk).
  - by rewrite (upsert_multiple _ _ _ _ _ _ _ Hget).
Qed.

Lemma unique_keys_frame model w w' :
  objects model (db w') = objects model (db w) ->
  unique_keys model w -> unique_keys model w'.
Proof. unfold unique_keys. by intros ->. Qed.

(** X5: whatever its outcome, the order sync keeps primary keys and
    external identifiers unique in the Order and Charge tables: it never
    leaves two local records with one identifier. *)
Theorem sync_order_keeps_unique_keys o w :
  unique_keys "Order" w -> unique_keys "Charge" w ->
  unique_keys "Order" (sync_order (Payload o) w).2 /\
  unique_keys "Charge" (sync_order (Payload o) w).2.
Proof.
  intros Hord Hch. rewrite sync_order_unfold.
  destruct (get_one _ _ _) as [customer|e]; [|done].
  destruct (truthy (dict_get o "charge")).
  - cbv zeta. destruct (Charge_retrieve stripe _ _) as [ch|e]; [|done].
    pose proof (upsert_frame "Charge" (dict_get ch "id") (charge_defaults ch)
                  (log_call (Call_Charge_retrieve (dict_get o "charge")) w))
      as (_ & _ & Hframe1).
    pose proof (upsert_keeps_unique_keys "Charge" (dict_get ch "id")
                  (charge_defaults ch)
                  (log_call (Call_Charge_retrieve (dict_get o "charge")) w) Hch)
      as Hch1.
    destruct (upsert "Charge" _ _ _) as [[local|e] wb]; simpl in *.
    + assert (unique_keys "Order" wb) as Hord1
        by (eapply unique_keys_frame; [by apply Hframe1|done]).
      split; [by apply upsert_keeps_unique_keys|].
      eapply unique_keys_frame; [|exact Hch1].
      by apply upsert_frame.
    + split; [|done]. eapply unique_keys_frame; [by apply Hframe1|done].
  - split; [by apply upsert_keeps_unique_keys|].
    eapply unique_keys_frame; [|exact Hch]. by apply upsert_frame.
Qed.
End Footprint.


Section PayAndCreate.
Context {Remote : Type}.
Variable stripe : Provider Remote.
Variable ZERO_DECIMAL_CURRENCIES : list string.
Variable charge_defaults : StripeObject -> StripeObject.
Variable convert_to_order_item : Row -> pyval.
Variable stripe_order_property : Row -> @M Remote StripeObject.
Implicit Types (w : World Remote) (o : StripeObject).

Local Abbreviation sync_order :=
  (sync_order_from_stripe_data stripe ZERO_DECIMAL_CURRENCIES charge_defaults).
Local Abbreviation pay' :=
  (pay stripe ZERO_DECIMAL_CURRENCIES charge_defaults stripe_order_property).
Local Abbreviation create' :=
  (create stripe ZERO_DECIMAL_CURRENCIES charge_defaults convert_to_order_item
          stripe_order_property).
Local Abbreviation create_return' :=
  (create_return stripe ZERO_DECIMAL_CURRENCIES charge_defaults stripe_order_property).

Lemma pay_payload_unfold o source w :
  pay' (Payload o) source w =
  let params : StripeObject := if truthy source then {[ "source" := source ]} else ∅ in
  let w1 := log_call (Call_Order_pay o params) w in
  match Order_pay stripe o params (remote w) with
  | (Ok paid, r) => sync_order (Payload paid) (set_remote r w1)
  | (Raise e, r) => (Raise e, set_remote r w1)
  end.
Proof.
  unfold pay. unfold bind at 1. unfold ret at 1. unfold bind at 1.
  unfold stripe_Order_pay. cbv zeta.
  by destruct (Order_pay stripe o _ (remote w)) as [[paid|e] r].
Qed.

(** X6: [pay] on a remote order stores what the provider answers, not the
    order it was given: on success the local Order has the identifier and
    the status of the answer; when the provider refuses the payment the
    error is raised as it came and the store and the write log are as
    before. *)
Theorem pay_stores_the_answer o source w :
  (forall local w3,
     pay' (Payload o) source w = (Ok local, w3) ->
     exists paid r,
       Order_pay stripe o (if truthy source then {[ "source" := source ]} else ∅)
         (remote w) = (Ok paid, r) /\
       stripe_id local = dict_get paid "id" /\
       attr local "status" = dict_get paid "status") /\
  (forall e r,
     Order_pay stripe o (if truthy source then {[ "source" := source ]} else ∅)
       (remote w) = (Raise e, r) ->
     exists w3, pay' (Payload o) source w = (Raise e, w3) /\
                db w3 = db w /\ writes w3 = writes w).
Proof.
  rewrite pay_payload_unfold. cbv zeta. split.
  - intros local w3.
    destruct (Order_pay stripe o _ (remote w)) as [[paid|e] r]; [|done].
    intros (Hid & _ & _ & Hcopied & _)%sync_order_fields.
    exists paid, r. split_and!; [done..|].
    apply Hcopied. unfold copied_order_fields. set_solver.
  - intros e r ->. by eexists.
Qed.

(** X7: when immediate payment is asked for and succeeds, [create] hands
    the local Order that [pay] returned to the order sync, which expects a
    payload: [create] raises [AttributeError] although the order was paid
    and its local record written. *)
Theorem create_raises_after_successful_payment customer items currency source
    shipping coupon metadata w created r1 paid r2 local w3 :
  truthy source = true ->
  let params :=
    create_params convert_to_order_item customer items currency shipping
                  coupon metadata in
  Order_create stripe params (remote w) = (Ok created, r1) ->
  Order_pay stripe created {[ "source" := source ]} r1 = (Ok paid, r2) ->
  sync_order (Payload paid)
    (set_remote r2
       (log_call (Call_Order_pay created {[ "source" := source ]})
          (set_remote r1 (log_call (Call_Order_create params) w)))) = (Ok local, w3) ->
  create' customer items currency source shipping coupon metadata true w =
    (Raise (AttributeError "get"), w3) /\
  local ∈ objects "Order" (db w3) /\
  stripe_id local = dict_get paid "id".
Proof.
  intros Hsrc params Hcreate Hpay Hsync. subst params. unfold create_params in *.
  split.
  - unfold create. rewrite Hsrc. cbn [andb negb].
    unfold bind at 1. unfold stripe_Order_create. rewrite Hcreate.
    unfold bind at 1. unfold try_except. unfold bind at 1.
    rewrite pay_payload_unfold. cbv zeta. rewrite Hsrc. simpl remote.
    rewrite Hpay, Hsync. reflexivity.
  - apply sync_order_result in Hsync as (c & ch & _ & Hid & Hin). done.
Qed.

(** X8: [create] asks the provider to create the order before anything
    else; when the provider refuses, that error is raised, the only request
    made is the creation, no payment is attempted and nothing is written
    locally. *)
Theorem create_refused customer items currency source shipping coupon
    metadata pay_immediately w e r1 :
  pay_immediately && negb (truthy source) = false ->
  let params :=
    create_params convert_to_order_item customer items currency shipping
                  coupon metadata in
  Order_create stripe params (remote w) = (Raise e, r1) ->
  create' customer items currency source shipping coupon metadata pay_immediately w =
    (Raise e,
     mkWorld r1 (calls w ++ [Call_Order_create params]) (db w) (writes w)).
Proof.
  intros Hguard params Hcreate. subst params. unfold create_params in *.
  unfold create. rewrite Hguard.
  unfold bind at 1. unfold stripe_Order_create. by rewrite Hcreate.
Qed.

(** X9: an optional argument that is falsy is treated as if it had been
    left out: [create] behaves the same for any two falsy coupons and any
    two falsy metadata values, [pay] for any two falsy sources, and
    [create_return] for any two falsy item lists, so an empty list of
    items returns the whole order. *)
Theorem falsy_arguments_are_omitted :
  (forall customer items currency source shipping coupon coupon' metadata
          metadata' pay_immediately w,
     truthy coupon = false -> truthy coupon' = false ->
     truthy metadata = false -> truthy metadata' = false ->
     create' customer items currency source shipping coupon metadata pay_immediately w =
     create' customer items currency source shipping coupon' metadata' pay_immediately w) /\
  (forall order source source' w,
     truthy source = false -> truthy source' = false ->
     pay' order source w = pay' order source' w) /\
  (forall order items items' w,
     truthy items = false -> truthy items' = false ->
     create_return' order items w = create_return' order items' w).
Proof.
  split_and!.
  - intros customer items currency source shipping coupon coupon' metadata
      metadata' pay_immediately w Hc Hc' Hm Hm'.
    unfold create. by rewrite Hc, Hc', Hm, Hm'.
  - intros order source source' w Hs Hs'. unfold pay. by rewrite Hs, Hs'.
  - intros order items items' w Hi Hi'. unfold create_return. by rewrite Hi, Hi'.
Qed.
End PayAndCreate.

Section UpdateProperties.
Context {Remote : Type}.
Variable stripe : Provider Remote.
Variable ZERO_DECIMAL_CURRENCIES : list string.
Variable charge_defaults : StripeObject -> StripeObject.
Variable stripe_order_property : Row -> @M Remote StripeObject.
Variable Order_save : StripeObject -> Remote -> result StripeObject * Remote.
Implicit Types (w : World Remote) (o : StripeObject).

Local Abbreviation sync_order :=
  (sync_order_from_stripe_data stripe ZERO_DECIMAL_CURRENCIES charge_defaults).
Local Abbreviation update' :=
  (update stripe ZERO_DECIMAL_CURRENCIES charge_defaults stripe_order_property
          Order_save).

Lemma set_if_truthy_eq name value o :
  dict_get (set_if_truthy name value o) name =
  if truthy value then value else dict_get o name.
Proof.
  unfold set_if_truthy, dict_get. destruct (truthy value); [|done].
  by rewrite lookup_insert_eq.
Qed.

Lemma set_if_truthy_ne name value o key :
  key <> name -> set_if_truthy name value o !! key = o !! key.
Proof.
  intros Hne. unfold set_if_truthy. destruct (truthy value); [|done].
  by rewrite lookup_insert_ne.
Qed.

Lemma set_if_truthy_dom name value o : dom o ⊆ dom (set_if_truthy name value o).
Proof.
  unfold set_if_truthy. destruct (truthy value); [|done].
  rewrite dom_insert_L. set_solver.
Qed.

Lemma dict_get_ext (o o' : StripeObject) key :
  o !! key = o' !! key -> dict_get o key = dict_get o' key.
Proof. unfold dict_get. by intros ->. Qed.

(** X10: [update] cannot clear a field.  The object it saves is the
    order's remote object in which each of coupon, metadata, selected
    shipping method, shipping and status holds the argument when that is
    truthy and the retrieved value otherwise; no other key is changed and
    no key is removed.  The sync then runs on the object as the save left
    it. *)
Theorem update_never_clears order coupon metadata selected_shipping_method
    shipping status w o w1 :
  stripe_order_property order w = (Ok o, w1) ->
  exists sent,
    update' order coupon metadata selected_shipping_method shipping status w =
      match Order_save sent (remote w1) with
      | (Ok saved, r) => sync_order (Payload saved) (set_remote r w1)
      | (Raise e, r) => (Raise e, set_remote r w1)
      end /\
    dict_get sent "coupon" = (if truthy coupon then coupon else dict_get o "coupon") /\
    dict_get sent "metadata" =
      (if truthy metadata then metadata else dict_get o "metadata") /\
    dict_get sent "selected_shipping_method" =
      (if truthy selected_shipping_method then selected_shipping_method
       else dict_get o "selected_shipping_method") /\
    dict_get sent "shipping" =
      (if truthy shipping then shipping else dict_get o "shipping") /\
    dict_get sent "status" = (if truthy status then status else dict_get o "status") /\
    (forall key, key ∉ updatable_fields -> sent !! key = o !! key) /\
    dom o ⊆ dom sent.
Proof.
  intros Hprop.
  exists (set_if_truthy "status" status
            (set_if_truthy "shipping" shipping
               (set_if_truthy "selected_shipping_method" selected_shipping_method
                  (set_if_truthy "metadata" metadata
                     (set_if_truthy "coupon" coupon o))))).
  split_and!.
  - unfold update. unfold bind at 1. rewrite Hprop. cbv zeta.
    unfold bind at 1. unfold stripe_Order_save.
    by destruct (Order_save _ (remote w1)) as [[saved|e] r].
  - rewrite !(dict_get_ext (set_if_truthy _ _ _) _ "coupon")
      by (by apply set_if_truthy_ne).
    apply set_if_truthy_eq.
  - rewrite !(dict_get_ext (set_if_truthy _ _ _) _ "metadata")
      by (by apply set_if_truthy_ne).
    rewrite set_if_truthy_eq.
    by rewrite (dict_get_ext (set_if_truthy _ _ _) _ "metadata")
      by (by apply set_if_truthy_ne).
  - rewrite !(dict_get_ext (set_if_truthy _ _ _) _ "selected_shipping_method")
      by (by apply set_if_truthy_ne).
    rewrite set_if_truthy_eq.
    by rewrite !(dict_get_ext (set_if_truthy _ _ _) _ "selected_shipping_method")
      by (by apply set_if_truthy_ne).
  - rewrite !(dict_get_ext (set_if_truthy _ _ _) _ "shipping")
      by (by apply set_if_truthy_ne).
    rewrite set_if_truthy_eq.
    by rewrite !(dict_get_ext (set_if_truthy _ _ _) _ "shipping")
      by (by apply set_if_truthy_ne).
  - rewrite set_if_truthy_eq.
    by rewrite !(dict_get_ext (set_if_truthy _ _ _) _ "status")
      by (by apply set_if_truthy_ne).
  - intros key Hkey. unfold updatable_fields in Hkey.
    rewrite !set_if_truthy_ne; [done|set_solver..].
  - repeat (etrans; [|apply set_if_truthy_dom]). done.
Qed.

End UpdateProperties.

(** *** The bulk syncs *)

Section BulkSync.
Context {Remote : Type}.
Variable stripe : Provider Remote.
Variable ZERO_DECIMAL_CURRENCIES : list string.
Variable charge_defaults : StripeObject -> StripeObject.
Variable stripe_customer_property : Row -> @M Remote StripeObject.
Variable Order_auto_paging_iter :
  option StripeObject -> Remote -> result (list StripeObject * option exn).
Variable Order_list : option StripeObject -> Remote -> result (list StripeObject).
Implicit Types (w : World Remote) (o : StripeObject).

Local Abbreviation sync_order :=
  (sync_order_from_stripe_data stripe ZERO_DECIMAL_CURRENCIES charge_defaults).
Local Abbreviation orders_iterator' :=
  (@orders_iterator Remote Order_auto_paging_iter Order_list).
Local Abbreviation sync_each' :=
  (@sync_each Remote stripe ZERO_DECIMAL_CURRENCIES charge_defaults).
Local Abbreviation sync_orders' :=
  (sync_orders stripe ZERO_DECIMAL_CURRENCIES charge_defaults
               Order_auto_paging_iter Order_list).
Local Abbreviation sync_orders_from_customer' :=
  (sync_orders_from_customer stripe ZERO_DECIMAL_CURRENCIES charge_defaults
     stripe_customer_property Order_auto_paging_iter Order_list).

Lemma for_each_app {A} (l1 l2 : list A) (body : A -> @M Remote unit) w :
  for_each (l1 ++ l2) body w =
  match for_each l1 body w with
  | (Ok _, w1) => for_each l2 body w1
  | (Raise e, w1) => (Raise e, w1)
  end.
Proof.
  revert w. induction l1 as [|x l1 IH]; intros w; [done|].
  rewrite <- app_comm_cons. cbn [for_each]. unfold bind.
  destruct (body x w) as [[[]|e] wa]; [apply IH|done].
Qed.

(** Whatever its outcome, an upsert removes no record of its table. *)
Lemma upsert_keeps_records model sid (defaults : StripeObject) w :
  NoDup (pk <$> objects model (db w)) ->
  NoDup (pk <$> objects model (db (upsert model sid defaults w).2)) /\
  forall sid', has_record model sid' w ->
               has_record model sid' (upsert model sid defaults w).2.
Proof.
  intros Hpk.
  destruct (with_stripe_id sid (objects model (db w))) as [|r [|r2 l]] eqn:Hget.
  - rewrite (upsert_created _ _ _ _ Hget). simpl. unfold has_record. simpl.
    rewrite objects_insert_eq. split; [by apply NoDup_pk_created|].
    intros sid' (x & Hx & Hsid). exists x. split; [|done].
    apply elem_of_app. by left.
  - rewrite (upsert_found _ _ _ _ _ Hget). case_decide; [done|].
    unfold has_record. simpl. rewrite objects_insert_eq, pk_replace_row.
    split; [done|].
    assert (stripe_id r = sid /\ r ∈ objects model (db w)) as [Hr Hin].
    { apply with_stripe_id_elem. rewrite Hget. by apply list_elem_of_singleton. }
    intros sid' (x & Hx & Hsid). exists (replace_row (assign r defaults) x).
    split; [by apply list_elem_of_fmap_2|].
    unfold replace_row. case_decide as Hxpk; [|done].
    simpl. by rewrite <- (pk_unique _ x r Hpk Hx Hin Hxpk).
  - by rewrite (upsert_multiple _ _ _ _ _ _ _ Hget).
Qed.

(** Whatever its outcome, the order sync removes no Order record; when it
    succeeds the payload's identifier has a record. *)
Lemma sync_order_keeps_records o w :
  NoDup (pk <$> objects "Order" (db w)) ->
  NoDup (pk <$> objects "Order" (db (sync_order (Payload o) w).2)) /\
  (forall sid, has_record "Order" sid w ->
               has_record "Order" sid (sync_order (Payload o) w).2) /\
  (forall order, (sync_order (Payload o) w).1 = Ok order ->
                 has_record "Order" (dict_get o "id") (sync_order (Payload o) w).2).
Proof.
  intros Hpk.
  assert (forall order, (sync_order (Payload o) w).1 = Ok order ->
            has_record "Order" (dict_get o "id") (sync_order (Payload o) w).2) as Hnew.
  { intros order Hok.
    destruct (sync_order (Payload o) w) as [r w1] eqn:Hrun. simpl in *. subst r.
    apply sync_order_result in Hrun as (c & ch & _ & Hid & Hin).
    by exists order. }
  split_and!; [| |done]; clear Hnew; rewrite sync_order_unfold.
  - destruct (get_one _ _ _) as [customer|e]; [|done].
    destruct (truthy (dict_get o "charge")).
    + cbv zeta. destruct (Charge_retrieve stripe _ _) as [ch|e]; [|done].
      pose proof (upsert_frame "Charge" (dict_get ch "id") (charge_defaults ch)
                    (log_call (Call_Charge_retrieve (dict_get o "charge")) w))
        as (_ & _ & Hframe).
      destruct (upsert "Charge" _ _ _) as [[local|e] wb]; simpl in Hframe.
      * apply upsert_keeps_records. by rewrite Hframe.
      * simpl. by rewrite Hframe.
    + by apply upsert_keeps_records.
  - intros sid Hrec.
    destruct (get_one _ _ _) as [customer|e]; [|done].
    destruct (truthy (dict_get o "charge")).
    + cbv zeta. destruct (Charge_retrieve stripe _ _) as [ch|e]; [|done].
      pose proof (upsert_frame "Charge" (dict_get ch "id") (charge_defaults ch)
                    (log_call (Call_Charge_retrieve (dict_get o "charge")) w))
        as (_ & _ & Hframe).
      destruct (upsert "Charge" _ _ _) as [[local|e] wb]; simpl in Hframe.
      * apply upsert_keeps_records.
        -- by rewrite Hframe.
        -- unfold has_record in *. by rewrite Hframe.
      * unfold has_record in *. simpl. by rewrite Hframe.
    + by apply upsert_keeps_records.
Qed.

Lemma orders_iterator_world customer w :
  (orders_iterator' customer w).2 = w.
Proof.
  unfold orders_iterator, try_except, stripe_Order_auto_paging_iter.
  destruct (Order_auto_paging_iter customer (remote w)) as [it|e]; [done|].
  destruct e; try done.
  unfold bind, stripe_Order_list. by destruct (Order_list customer (remote w)).
Qed.

Lemma sync_each_nil err w :
  sync_each' ([], err) w =
  match err with Some e => (Raise e, w) | None => (Ok tt, w) end.
Proof. unfold sync_each. cbn. by destruct err. Qed.

Lemma sync_each_cons o l err w :
  sync_each' (o :: l, err) w =
  match sync_order (Payload o) w with
  | (Ok _, wa) => sync_each' (l, err) wa
  | (Raise e, wa) => (Raise e, wa)
  end.
Proof.
  unfold sync_each. cbn [fst snd for_each]. unfold bind.
  by destruct (sync_order (Payload o) w) as [[order|e] wa].
Qed.

(** The loop over the orders: records are kept, and on success every
    order that was yielded has a record and the iteration ended normally. *)
Lemma sync_each_records (orders : list StripeObject * option exn) w :
  NoDup (pk <$> objects "Order" (db w)) ->
  (forall sid, has_record "Order" sid w ->
               has_record "Order" sid (sync_each' orders w).2) /\
  ((sync_each' orders w).1 = Ok tt ->
   orders.2 = None /\
   forall o, o ∈ orders.1 -> has_record "Order" (dict_get o "id") (sync_each' orders w).2).
Proof.
  destruct orders as [l err]. cbn [fst snd].
  revert w. induction l as [|o l IH]; intros w Hpk.
  - rewrite sync_each_nil. destruct err as [e|]; simpl.
    + split; [done|]. done.
    + split; [done|]. intros _. split; [done|]. intros o Ho.
      by apply elem_of_nil in Ho.
  - rewrite sync_each_cons.
    destruct (sync_order_keeps_records o w Hpk) as (Hpk1 & Hkeep & Hnew).
    destruct (sync_order (Payload o) w) as [[order|e] wa]; simpl in Hpk1, Hkeep, Hnew.
    + specialize (IH wa Hpk1) as [IHkeep IHok].
      split.
      * intros sid Hrec. by apply IHkeep, Hkeep.
      * intros Hok. specialize (IHok Hok) as [Herr Hall]. split; [done|].
        intros o' [->|Ho']%elem_of_cons; [|by apply Hall].
        apply IHkeep. by eapply Hnew.
    + split; [done|]. done.
Qed.

(** X11: the bulk syncs delete nothing: whatever the outcome of
    [sync_orders] (and of [sync_orders_from_customer], once the customer's
    remote object has been obtained), every Order identifier that had a
    local record still has one; when they return normally the iteration
    over the provider's orders ended without an error and every order it
    yielded has a local record.  Primary keys are assumed unique in the
    Order table. *)
Theorem bulk_sync_keeps_and_covers w :
  NoDup (pk <$> objects "Order" (db w)) ->
  ((forall sid, has_record "Order" sid w ->
                has_record "Order" sid (sync_orders' w).2) /\
   ((sync_orders' w).1 = Ok tt ->
    exists orders,
      orders_iterator' None w = (Ok (orders, None), w) /\
      forall o, o ∈ orders -> has_record "Order" (dict_get o "id") (sync_orders' w).2)) /\
  (forall customer stripe_customer,
     stripe_customer_property customer w = (Ok stripe_customer, w) ->
     (forall sid, has_record "Order" sid w ->
                  has_record "Order" sid (sync_orders_from_customer' customer w).2) /\
     ((sync_orders_from_customer' customer w).1 = Ok tt ->
      exists orders,
        orders_iterator' (Some stripe_customer) w = (Ok (orders, None), w) /\
        forall o, o ∈ orders ->
          has_record "Order" (dict_get o "id") (sync_orders_from_customer' customer w).2)).
Proof.
  intros Hpk.
  assert (forall customer,
            (forall sid, has_record "Order" sid w ->
               has_record "Order" sid
                 (bind (orders_iterator' customer) sync_each' w).2) /\
            ((bind (orders_iterator' customer) sync_each' w).1 = Ok tt ->
             exists orders,
               orders_iterator' customer w = (Ok (orders, None), w) /\
               forall o, o ∈ orders ->
                 has_record "Order" (dict_get o "id")
                   (bind (orders_iterator' customer) sync_each' w).2)) as Hloop.
  { intros customer. unfold bind.
    pose proof (orders_iterator_world customer w) as Hw.
    destruct (orders_iterator' customer w) as [[[orders err]|e] w0];
      simpl in Hw; subst w0; [|done].
    destruct (sync_each_records (orders, err) w Hpk) as [Hkeep Hok].
    split; [done|]. intros H. specialize (Hok H) as [Herr Hall].
    simpl in Herr. subst err. by exists orders. }
  split; [apply (Hloop None)|].
  intros customer stripe_customer Hprop.
  assert (sync_orders_from_customer' customer w =
          bind (orders_iterator' (Some stripe_customer)) sync_each' w) as ->.
  { unfold sync_orders_from_customer. unfold bind at 1. by rewrite Hprop. }
  apply (Hloop (Some stripe_customer)).
Qed.

(** X12: a bulk sync stops at the first order whose sync fails: the orders
    before it stay synchronised, its error is raised, and the orders after
    it are not attempted. *)
Theorem sync_orders_stops_at_first_failure before failing after err w w1 e w2 :
  orders_iterator' None w = (Ok ((before ++ failing :: after)%list, err), w) ->
  sync_each' (before, None) w = (Ok tt, w1) ->
  sync_order (Payload failing) w1 = (Raise e, w2) ->
  sync_orders' w = (Raise e, w2) /\
  objects "Order" (db w2) = objects "Order" (db w1).
Proof.
  intros Hit Hbefore Hfail. split.
  - unfold sync_orders. unfold bind at 1. rewrite Hit.
    clear Hit. revert w Hbefore. induction before as [|o l IH]; intros w Hbefore.
    + rewrite sync_each_nil in Hbefore. injection Hbefore as ->.
      cbn [app]. by rewrite sync_each_cons, Hfail.
    + rewrite <- app_comm_cons, sync_each_cons. rewrite sync_each_cons in Hbefore.
      destruct (sync_order (Payload o) w) as [[order|e0] wa]; [|done].
      by apply IH.
  - by apply sync_order_failure_writes_no_order in Hfail as [? _].
Qed.
End BulkSync.


Section PlanFootprint.
Context {Remote : Type}.
Variable stripe : Provider Remote.
Variable ZERO_DECIMAL_CURRENCIES : list string.
Implicit Types (w : World Remote) (plan : StripeObject).

Local Abbreviation sync_plan' := (@sync_plan Remote ZERO_DECIMAL_CURRENCIES).
Local Abbreviation sync_plans' := (sync_plans stripe ZERO_DECIMAL_CURRENCIES).

(** The loop body, step by step. *)
Lemma sync_plan_unfold plan w :
  sync_plan' plan w =
  match first_missing plan with
  | Some key => (Raise (KeyError key), w)
  | None =>
      match upsert "Plan" (dict_get plan "id")
              (plan_defaults ZERO_DECIMAL_CURRENCIES plan) w with
      | (Ok _, w1) => (Ok tt, w1)
      | (Raise e, w1) => (Raise e, w1)
      end
  end.
Proof.
  unfold sync_plan, getitem, first_missing, plan_defaults, dict_get, plan_keys.
  cbn [List.find].
  destruct (plan !! "amount") as [amount|]; [|done].
  destruct (plan !! "currency") as [currency|]; [|done].
  destruct (plan !! "interval") as [interval|]; [|done].
  destruct (plan !! "interval_count") as [interval_count|]; [|done].
  destruct (plan !! "name") as [name|]; [|done].
  destruct (plan !! "statement_descriptor") as [statement_descriptor|]; [|done].
  destruct (plan !! "trial_period_days") as [trial_period_days|]; [|done].
  destruct (plan !! "id") as [id|]; [|done].
  cbn. unfold upsert, bind, ret.
  destruct (get_or_create "Plan" id _ w) as [[[obj created]|e] w1]; [|done].
  by destruct (update_with_defaults "Plan" obj _ created w1) as [[obj'|e] w2].
Qed.

(** X13: the plan sync reads its payload with [plan[key]]: when the
    payload lacks one of the eight keys, the loop body raises [KeyError]
    for the first missing key in reading order; its only other failure is
    an ambiguous lookup of the local Plan; either way the world is left as
    it was. *)
Theorem sync_plan_failures plan w :
  (forall key, first_missing plan = Some key ->
     sync_plan' plan w = (Raise (KeyError key), w)) /\
  (forall e w1, sync_plan' plan w = (Raise e, w1) ->
     w1 = w /\
     ((exists key, first_missing plan = Some key /\ e = KeyError key) \/
      (first_missing plan = None /\ e = MultipleObjectsReturned "Plan"))).
Proof.
  rewrite sync_plan_unfold. split.
  - by intros key ->.
  - intros e w1. destruct (first_missing plan) as [key|].
    + intros [= <- <-]. split; [done|]. left. by exists key.
    + destruct (upsert "Plan" _ _ w) as [[obj|e0] w2] eqn:Hup; [done|].
      intros [= <- <-]. apply upsert_raise in Hup as [-> ->].
      split; [done|]. by right.
Qed.

(** X14: after a successful run of the loop body the local Plan with the
    payload's identifier holds the converted amount, the payload's
    interval, interval count, name and trial period, and a currency and a
    statement descriptor that are the payload's when truthy and the empty
    string otherwise, so never [None]. *)
Theorem sync_plan_fields plan w w1 :
  sync_plan' plan w = (Ok tt, w1) ->
  exists obj,
    obj ∈ objects "Plan" (db w1) /\
    stripe_id obj = dict_get plan "id" /\
    attr obj "amount" =
      convert_amount_for_db ZERO_DECIMAL_CURRENCIES (dict_get plan "amount")
        (dict_get plan "currency") /\
    (forall key, key ∈ ["interval"; "interval_count"; "name"; "trial_period_days"] ->
       attr obj key = dict_get plan key) /\
    (forall key, key ∈ ["currency"; "statement_descriptor"] ->
       attr obj key = (if truthy (dict_get plan key) then dict_get plan key else PStr "") /\
       attr obj key <> PNone).
Proof.
  rewrite sync_plan_unfold. destruct (first_missing plan); [done|].
  destruct (upsert "Plan" _ _ w) as [[obj|e] w2] eqn:Hup; [|done].
  intros [= <-]. apply upsert_result in Hup as (Hag & Hid & Hin).
  exists obj. split_and!; [done..| | |].
  - by apply (agrees_with_attr _ _ _ _ Hag).
  - intros key Hkey. apply (agrees_with_attr _ _ _ _ Hag).
    repeat (apply elem_of_cons in Hkey as [->|Hkey]; [reflexivity|]).
    by apply elem_of_nil in Hkey.
  - assert (forall v, (if truthy v then v else PStr "") <> PNone) as Hnn.
    { intros v. destruct (truthy v) eqn:Hv; [|done]. by intros ->. }
    intros key Hkey.
    apply elem_of_cons in Hkey as [->|Hkey];
      [|apply list_elem_of_singleton in Hkey as ->].
    + rewrite (agrees_with_attr _ _ "currency" _ Hag eq_refl). split; [done|].
      apply Hnn.
    + rewrite (agrees_with_attr _ _ "statement_descriptor" _ Hag eq_refl).
      split; [done|]. apply Hnn.
Qed.

Lemma sync_plan_frame plan w :
  remote (sync_plan' plan w).2 = remote w /\
  calls (sync_plan' plan w).2 = calls w /\
  forall m, m <> "Plan" -> objects m (db (sync_plan' plan w).2) = objects m (db w).
Proof.
  rewrite sync_plan_unfold. destruct (first_missing plan); [done|].
  pose proof (upsert_frame "Plan" (dict_get plan "id")
                (plan_defaults ZERO_DECIMAL_CURRENCIES plan) w) as H.
  by destruct (upsert "Plan" _ _ w) as [[obj|e] w1].
Qed.

Lemma for_each_sync_plan_frame (plans : list StripeObject) w :
  remote (for_each plans sync_plan' w).2 = remote w /\
  calls (for_each plans sync_plan' w).2 = calls w /\
  forall m, m <> "Plan" ->
    objects m (db (for_each plans sync_plan' w).2) = objects m (db w).
Proof.
  revert w. induction plans as [|plan plans IH]; intros w; [done|].
  cbn [for_each]. unfold bind.
  destruct (sync_plan_frame plan w) as (Hrem & Hcalls & Hframe).
  destruct (sync_plan' plan w) as [[[]|e] wa]; simpl in *; [|done].
  destruct (IH wa) as (Hrem1 & Hcalls1 & Hframe1).
  split_and!; [congruence..|]. intros m Hm. by rewrite Hframe1, Hframe.
Qed.

(** X15: whatever its outcome and however many plans are listed,
    [sync_plans] sends exactly one request to the provider, the listing,
    leaves the provider state as it was and touches no table other than
    Plan; when the listing fails its error is raised and nothing is
    written. *)
Theorem sync_plans_footprint w :
  calls (sync_plans' w).2 = (calls w ++ [Call_Plan_all])%list /\
  remote (sync_plans' w).2 = remote w /\
  (forall m, m <> "Plan" -> objects m (db (sync_plans' w).2) = objects m (db w)) /\
  (forall e, Plan_all stripe (remote w) = Raise e ->
     sync_plans' w = (Raise e, log_call Call_Plan_all w)).
Proof.
  rewrite sync_plans_unfold.
  destruct (Plan_all stripe (remote w)) as [plans|e].
  - destruct (for_each_sync_plan_frame plans (log_call Call_Plan_all w))
      as (Hrem & Hcalls & Hframe).
    split_and!; [done..|]. done.
  - split_and!; [done..|]. by intros e0 [= ->].
Qed.
End PlanFootprint.

(** ** The further properties at work on the fixture *)

Lemma sync_order_fields_witness :
  exists order w1,
    sync_order_from_stripe_data Fixture.stripe Fixture.ZERO_DECIMAL_CURRENCIES
      Fixture.charge_defaults (Payload Fixture.order_unpaid) Fixture.world
    = (Ok order, w1) /\
    stripe_id order = dict_get Fixture.order_unpaid "id" /\
    attr order "status" = dict_get Fixture.order_unpaid "status".
Proof.
  destruct (sync_order_from_stripe_data Fixture.stripe
              Fixture.ZERO_DECIMAL_CURRENCIES Fixture.charge_defaults
              (Payload Fixture.order_unpaid) Fixture.world)
    as [[order|e] w1] eqn:Hrun; [|vm_compute in Hrun; discriminate].
  destruct (sync_order_fields Fixture.stripe Fixture.ZERO_DECIMAL_CURRENCIES
              Fixture.charge_defaults Fixture.order_unpaid Fixture.world
              order w1 Hrun) as (Hid & _ & _ & Hcopied & _).
  exists order, w1. split; [reflexivity|]. split; [exact Hid|].
  apply Hcopied. by_computation.
Defined.

Lemma sync_order_success_criterion_witness :
  exists order w1,
    sync_order_from_stripe_data Fixture.stripe Fixture.ZERO_DECIMAL_CURRENCIES
      Fixture.charge_defaults (Payload Fixture.order_unpaid) Fixture.world
    = (Ok order, w1).
Proof.
  destruct (sync_order_success_criterion Fixture.stripe
              Fixture.ZERO_DECIMAL_CURRENCIES Fixture.charge_defaults
              Fixture.order_unpaid Fixture.world eq_refl) as [Hiff _].
  apply Hiff. split; vm_compute; [reflexivity | repeat constructor].
Defined.

Lemma sync_order_failure_writes_no_order_witness :
  exists e w1,
    sync_order_from_stripe_data Fixture.stripe Fixture.ZERO_DECIMAL_CURRENCIES
      Fixture.charge_defaults (Payload Fixture.order_unknown_customer)
      Fixture.world = (Raise e, w1) /\
    objects "Order" (db w1) = objects "Order" (db Fixture.world).
Proof.
  destruct (sync_order_from_stripe_data Fixture.stripe
              Fixture.ZERO_DECIMAL_CURRENCIES Fixture.charge_defaults
              (Payload Fixture.order_unknown_customer) Fixture.world)
    as [[order|e] w1] eqn:Hrun; [vm_compute in Hrun; discriminate|].
  exists e, w1. split; [reflexivity|].
  exact (proj1 (sync_order_failure_writes_no_order Fixture.stripe
                  Fixture.ZERO_DECIMAL_CURRENCIES Fixture.charge_defaults
                  Fixture.order_unknown_customer Fixture.world e w1 Hrun)).
Defined.

Lemma sync_order_keeps_unique_keys_witness :
  unique_keys "Order"
    (sync_order_from_stripe_data Fixture.stripe Fixture.ZERO_DECIMAL_CURRENCIES
       Fixture.charge_defaults (Payload Fixture.order_with_charge) Fixture.world).2 /\
  unique_keys "Charge"
    (sync_order_from_stripe_data Fixture.stripe Fixture.ZERO_DECIMAL_CURRENCIES
       Fixture.charge_defaults (Payload Fixture.order_with_charge) Fixture.world).2.
Proof.
  apply sync_order_keeps_unique_keys; split; by_computation.
Defined.

Lemma create_raises_after_successful_payment_witness :
  exists w3 local,
    create Sample.stripe_paying Fixture.ZERO_DECIMAL_CURRENCIES
      Fixture.charge_defaults Fixture.convert_to_order_item
      Fixture.stripe_order_property Fixture.customer1 [SkuInstance Sample.sku1]
      (PStr "usd") (PStr "tok_visa") PNone PNone PNone true Fixture.world
    = (Raise (AttributeError "get"), w3) /\
    local ∈ objects "Order" (db w3) /\
    stripe_id local = dict_get Sample.order_paid "id".
Proof.
  destruct (sync_order_from_stripe_data Sample.stripe_paying
              Fixture.ZERO_DECIMAL_CURRENCIES Fixture.charge_defaults
              (Payload Sample.order_paid)
              (set_remote tt
                 (log_call (Call_Order_pay Fixture.order_unpaid
                              {[ "source" := PStr "tok_visa" ]})
                    (set_remote tt
                       (log_call
                          (Call_Order_create
                             (create_params Fixture.convert_to_order_item
                                Fixture.customer1 [SkuInstance Sample.sku1]
                                (PStr "usd") PNone PNone PNone))
                          Fixture.world)))))
    as [[local|e] w3] eqn:Hrun; [|vm_compute in Hrun; discriminate].
  exists w3, local.
  apply (create_raises_after_successful_payment Sample.stripe_paying
           Fixture.ZERO_DECIMAL_CURRENCIES Fixture.charge_defaults
           Fixture.convert_to_order_item Fixture.stripe_order_property
           Fixture.customer1 [SkuInstance Sample.sku1]
           (PStr "usd") (PStr "tok_visa") PNone PNone PNone Fixture.world
           Fixture.order_unpaid tt Sample.order_paid tt local w3
           eq_refl eq_refl eq_refl Hrun).
Defined.

Lemma create_refused_witness :
  create Sample.stripe_refusing Fixture.ZERO_DECIMAL_CURRENCIES
    Fixture.charge_defaults Fixture.convert_to_order_item
    Fixture.stripe_order_property Fixture.customer1 [SkuInstance Sample.sku1]
    (PStr "usd") (PStr "tok_visa") PNone PNone PNone true Fixture.world
  = (Raise (InvalidRequestError "No such customer: cus_1"),
     mkWorld tt
       [Call_Order_create
          (create_params Fixture.convert_to_order_item Fixture.customer1
             [SkuInstance Sample.sku1] (PStr "usd") PNone PNone PNone)]
       Fixture.store []).
Proof.
  apply (create_refused Sample.stripe_refusing Fixture.ZERO_DECIMAL_CURRENCIES
           Fixture.charge_defaults Fixture.convert_to_order_item
           Fixture.stripe_order_property Fixture.customer1
           [SkuInstance Sample.sku1] (PStr "usd") (PStr "tok_visa")
           PNone PNone PNone true Fixture.world).
  - reflexivity.
  - reflexivity.
Defined.

Lemma update_never_clears_witness :
  exists sent,
    dict_get sent "status" = PStr "canceled" /\
    dict_get sent "metadata" = dict_get Fixture.order_unpaid "metadata" /\
    sent !! "amount" = Fixture.order_unpaid !! "amount".
Proof.
  destruct (update_never_clears Fixture.stripe Fixture.ZERO_DECIMAL_CURRENCIES
              Fixture.charge_defaults Fixture.stripe_order_property
              Sample.Order_save (mkRow 1 (PStr "or_1") ∅)
              PNone (PDict []) PNone PNone (PStr "canceled") Fixture.world
              Fixture.order_unpaid
              (log_call (Call_Order_retrieve (PStr "or_1")) Fixture.world)
              eq_refl)
    as (sent & _ & _ & Hmeta & _ & _ & Hstatus & Hother & _).
  exists sent. split_and!.
  - exact Hstatus.
  - exact Hmeta.
  - apply Hother. by_computation.
Defined.

Lemma sync_plan_fields_witness :
  exists obj w1,
    sync_plan Fixture.ZERO_DECIMAL_CURRENCIES Fixture.plan_pro Fixture.world
    = (Ok tt, w1) /\
    obj ∈ objects "Plan" (db w1) /\
    attr obj "statement_descriptor" <> PNone /\
    attr obj "name" = dict_get Fixture.plan_pro "name".
Proof.
  destruct (sync_plan Fixture.ZERO_DECIMAL_CURRENCIES Fixture.plan_pro
              Fixture.world) as [[[]|e] w1] eqn:Hrun;
    [|vm_compute in Hrun; discriminate].
  destruct (sync_plan_fields Fixture.ZERO_DECIMAL_CURRENCIES Fixture.plan_pro
              Fixture.world w1 Hrun) as (obj & Hin & _ & _ & Hcopied & Hor).
  exists obj, w1. split; [reflexivity|]. split; [exact Hin|]. split.
  - apply (Hor "statement_descriptor"). by_computation.
  - apply (Hcopied "name"). by_computation.
Defined.

Lemma bulk_sync_keeps_and_covers_witness :
  exists orders,
    orders_iterator Sample.Order_auto_paging_iter Sample.Order_list
      (Some {[ "id" := PStr "cus_1" ]}) Fixture.world
    = (Ok (orders, None), Fixture.world) /\
    forall o, o ∈ orders ->
      has_record "Order" (dict_get o "id")
        (sync_orders_from_customer Fixture.stripe Fixture.ZERO_DECIMAL_CURRENCIES
           Fixture.charge_defaults Sample.stripe_customer_property
           Sample.Order_auto_paging_iter Sample.Order_list
           Fixture.customer1 Fixture.world).2.
Proof.
  assert (NoDup (pk <$> objects "Order" (db Fixture.world))) as Hpk
    by by_computation.
  destruct (bulk_sync_keeps_and_covers Fixture.stripe
              Fixture.ZERO_DECIMAL_CURRENCIES Fixture.charge_defaults
              Sample.stripe_customer_property Sample.Order_auto_paging_iter
              Sample.Order_list Fixture.world Hpk) as [_ Hcustomer].
  destruct (Hcustomer Fixture.customer1 {[ "id" := PStr "cus_1" ]} eq_refl)
    as [_ Hcovers].
  apply Hcovers. vm_compute. reflexivity.
Defined.

Lemma sync_orders_stops_at_first_failure_witness :
  exists w2,
    sync_orders Fixture.stripe Fixture.ZERO_DECIMAL_CURRENCIES
      Fixture.charge_defaults Sample.Order_auto_paging_iter Sample.Order_list
      Fixture.world = (Raise (DoesNotExist "Customer"), w2).
Proof.
  edestruct (sync_orders_stops_at_first_failure Fixture.stripe
               Fixture.ZERO_DECIMAL_CURRENCIES Fixture.charge_defaults
               Sample.Order_auto_paging_iter Sample.Order_list
               [Fixture.order_unpaid] Fixture.order_unknown_customer
               [Sample.order_second] None Fixture.world) as [Hraise _].
  - reflexivity.
  - vm_compute. reflexivity.
  - vm_compute. reflexivity.
  - eexists. exact Hraise.
Defined.
